(** * SunPy utility decorators: a shallow embedding and its properties

    The development follows [sunpy/util/decorators.py]: the computation of
    the removal version, the deprecation decorator (message construction,
    function wrappers, in-place rewriting of classes) and the docstring
    composer [add_common_docstring].  The constants registry exercised by
    [sunpy/sun/tests/test_constants.py] is modelled at the end.

    Python strings are modelled as byte strings ([string]); characters
    outside ASCII are plain, non-blank, non-digit characters. *)

From Stdlib Require Import ZArith Ascii String List Bool Lia.
From Stdlib Require Import DecimalString.
From stdpp Require Import base option gmap strings list fin_maps.

Local Open Scope string_scope.
Local Open Scope Z_scope.

(** ** Exceptions and results *)

Inductive exn : Type :=
| ValueError
| KeyError (key : string)
| IndexError
| AttributeError
| TypeError
| LookupError
| SystemError      (* a dangling class reference: unreachable from Python *)
| NotModelled      (* a feature of a builtin left out of the model *)
| UserError (tag : nat).

Inductive result (A : Type) : Type :=
| Ok (a : A)
| Raise (e : exn).
Arguments Ok {A} a.
Arguments Raise {A} e.

Definition bind_result {A B} (r : result A) (k : A -> result B) : result B :=
  match r with
  | Ok a => k a
  | Raise e => Raise e
  end.

Definition map_result {A B} (f : A -> B) (r : result A) : result B :=
  bind_result r (fun a => Ok (f a)).

#[global] Instance result_ret : MRet result := @Ok.
#[global] Instance result_bind : MBind result :=
  fun A B k r => bind_result r k.
#[global] Instance result_fmap : FMap result := @map_result.

(** ** The builtins of Python the module relies on *)

Module Py.

Definition chr_dot : ascii := "."%char.
Definition chr_nl : ascii := "010"%char.

(** [str.isspace] on the ASCII range. *)
Definition is_space (c : ascii) : bool :=
  let n := nat_of_ascii c in
  ((9 <=? n)%nat && (n <=? 13)%nat) || ((28 <=? n)%nat && (n <=? 32)%nat).

Fixpoint lstrip_with (p : ascii -> bool) (s : string) : string :=
  match s with
  | EmptyString => EmptyString
  | String c s' => if p c then lstrip_with p s' else s
  end.

Fixpoint string_rev_onto (s acc : string) : string :=
  match s with
  | EmptyString => acc
  | String c s' => string_rev_onto s' (String c acc)
  end.

Definition string_rev (s : string) : string := string_rev_onto s EmptyString.

Definition rstrip_with (p : ascii -> bool) (s : string) : string :=
  string_rev (lstrip_with p (string_rev s)).

Definition strip_with (p : ascii -> bool) (s : string) : string :=
  rstrip_with p (lstrip_with p s).

(** [s.strip()] and [s.strip('\n')]. *)
Definition strip (s : string) : string := strip_with is_space s.
Definition strip_newlines (s : string) : string :=
  strip_with (Ascii.eqb chr_nl) s.

(** [s.split(sep)] for a one-character separator: never empty. *)
Fixpoint split (sep : ascii) (s : string) : list string :=
  match s with
  | EmptyString => [EmptyString]
  | String c s' =>
      if Ascii.eqb c sep then EmptyString :: split sep s'
      else match split sep s' with
           | [] => [String c EmptyString]
           | p :: ps => String c p :: ps
           end
  end.

Definition digit_of (c : ascii) : option Z :=
  let n := nat_of_ascii c in
  if ((48 <=? n)%nat && (n <=? 57)%nat)%bool then Some (Z.of_nat n - 48)
  else None.

(** Decimal digits, single underscores allowed between two digits. *)
Fixpoint parse_digits (acc : Z) (after_digit : bool) (s : string) : option Z :=
  match s with
  | EmptyString => if after_digit then Some acc else None
  | String c s' =>
      if Ascii.eqb c "_"%char then
        if after_digit then parse_digits acc false s' else None
      else match digit_of c with
           | Some d => parse_digits (10 * acc + d) true s'
           | None => None
           end
  end.

Definition parse_signed (s : string) : option Z :=
  match s with
  | String "-"%char s' => Z.opp <$> parse_digits 0 false s'
  | String "+"%char s' => parse_digits 0 false s'
  | _ => parse_digits 0 false s
  end.

(** [int(s)] for a string argument, base ten. *)
Definition int (s : string) : result Z :=
  match parse_signed (strip s) with
  | Some z => Ok z
  | None => Raise ValueError
  end.

(** [str(n)] for an integer. *)
Definition str_of_int (z : Z) : string :=
  NilZero.string_of_int (Z.to_int z).

Definition all_digits (s : string) : bool :=
  forallb (fun c => bool_decide (is_Some (digit_of c))) (list_ascii_of_string s).

Definition has_char (p : ascii -> bool) (s : string) : bool :=
  existsb p (list_ascii_of_string s).

(** The characters that start a conversion, a format specification, an
    attribute access or an index inside a replacement field. *)
Definition is_field_operator (c : ascii) : bool :=
  Ascii.eqb c "!"%char || Ascii.eqb c ":"%char
  || Ascii.eqb c "."%char || Ascii.eqb c "["%char.

(** The value of the replacement field [{field}] of [str.format] called with keywords only:
    no positional arguments are ever passed, so an empty or numeric field
    is out of range. *)
Definition format_field (kwargs : string -> option string) (field : string)
  : result string :=
  if has_char is_field_operator field then Raise NotModelled
  else if all_digits field then Raise IndexError
  else match kwargs field with
       | Some v => Ok v
       | None => Raise (KeyError field)
       end.

(** [str.format] with keyword arguments whose values are strings.  [field] is [Some f] while
    the scan is inside a replacement field whose name so far is [f]. *)
Fixpoint format_scan (kwargs : string -> option string) (s : string)
  (field : option string) : result string :=
  match s with
  | EmptyString =>
      match field with
      | None => Ok EmptyString
      | Some _ => Raise ValueError
      end
  | String c s' =>
      match field with
      | None =>
          if Ascii.eqb c "{"%char then
            match s' with
            | String "{"%char s'' =>
                String "{"%char <$> format_scan kwargs s'' None
            | _ => format_scan kwargs s' (Some EmptyString)
            end
          else if Ascii.eqb c "}"%char then
            match s' with
            | String "}"%char s'' =>
                String "}"%char <$> format_scan kwargs s'' None
            | _ => Raise ValueError
            end
          else String c <$> format_scan kwargs s' None
      | Some f =>
          if Ascii.eqb c "}"%char then
            v ← format_field kwargs f;
            String.append v <$> format_scan kwargs s' None
          else if Ascii.eqb c "{"%char then Raise ValueError
          else format_scan kwargs s' (Some (f ++ String c EmptyString))
      end
  end.

Definition format (s : string) (kwargs : string -> option string)
  : result string :=
  format_scan kwargs s None.

(** [sub in s]. *)
Fixpoint contains (sub s : string) : bool :=
  String.prefix sub s
  || match s with
     | EmptyString => false
     | String _ s' => contains sub s'
     end.

Definition lower_char (c : ascii) : ascii :=
  let n := nat_of_ascii c in
  if ((65 <=? n)%nat && (n <=? 90)%nat)%bool then ascii_of_nat (n + 32) else c.

(** [s.lower()] on the ASCII range. *)
Fixpoint lower (s : string) : string :=
  match s with
  | EmptyString => EmptyString
  | String c s' => String (lower_char c) (lower s')
  end.

Definition nl : string := String chr_nl EmptyString.

(** A dict literal with string keys, read by key. *)
Fixpoint dict_get (d : list (string * string)) (k : string) : option string :=
  match d with
  | [] => None
  | (k', v) :: d' => if String.eqb k' k then Some v else dict_get d' k
  end.

End Py.

(** ** Objects, classes and the warning sink *)

Inductive warning_category : Type :=
| SunpyDeprecationWarning
| SunpyPendingDeprecationWarning.

(** One call of [warnings.warn(message, category, stacklevel)]. *)
Record warning : Type := Warning {
  w_message : string;
  w_category : warning_category;
  w_stacklevel : Z
}.

(** Classes are mutable objects reached through references. *)
Definition loc : Type := positive.

(** Code the model does not look into: its behaviour is supplied by the
    environment.  [Instantiate c] is a class called from inside a
    wrapper. *)
Inductive prim : Type :=
| ObjectNew
| ObjectInit
| Instantiate (c : loc)
| UserCode (n : nat).

(** The objects a decorator can be handed.  A function object carries its
    [__name__], its [__doc__], its [__wrapped__] and its code; the code of
    a wrapper built by [deprecate_function] is the closure of
    [deprecated_func], kept with its captured variables. *)
#[warnings="-register-all"] Inductive pyobj : Type :=
| PNone
| PData (id : nat) (name : option string) (doc : option string)
| PInstance (cls : loc) (id : nat)
| PFunction (name : string) (doc : option string) (wrapped : option pyobj)
    (code : fcode)
| PWrapperDescriptor (name : string) (doc : option string) (p : prim)
| PCallable (name : option string) (doc : option string) (p : prim)
| PClassMethod (f : pyobj)
| PStaticMethod (f : pyobj)
| PMethod (f : pyobj) (self : pyobj)
| PClass (c : loc)
with fcode : Type :=
| Source (p : prim)
| DeprecatedFunc (message : string) (pending : bool)
    (pending_warning_type warning_type : warning_category) (func : pyobj).

Record class_obj : Type := ClassObj {
  cls_name : string;
  cls_doc : option string;
  cls_native : bool;          (* an extension type: cannot be modified *)
  cls_mro : list loc;         (* the bases in resolution order, [object] left out *)
  cls_dict : gmap string pyobj
}.

Abbreviation heap := (gmap loc class_obj).

(** The positional and keyword arguments of a call. *)
Record call_args : Type := CallArgs {
  positional : list pyobj;
  keywords : list (string * pyobj)
}.

Definition with_self (self : pyobj) (a : call_args) : call_args :=
  {| positional := self :: positional a; keywords := keywords a |}.

Inductive outcome : Type :=
| Returned (v : pyobj)
| Raised (e : exn).

Record state (U : Type) : Type := State {
  warnings : list warning;    (* what the warning sink received, oldest first *)
  user : U                    (* everything else the wrapped code can touch *)
}.
Arguments State {U} warnings user.
Arguments warnings {U} s.
Arguments user {U} s.

(** The sink is a log of the calls it receives: filters that drop a
    warning or turn it into an exception are outside the model. *)
Definition warnings_warn {U} (message : string) (category : warning_category)
  (stacklevel : Z) (st : state U) : state U :=
  {| warnings := warnings st ++ [Warning message category stacklevel];
     user := user st |}.

Definition object_new : pyobj := PCallable (Some "__new__") None ObjectNew.
Definition object_init : pyobj := PWrapperDescriptor "__init__" None ObjectInit.

Definition is_object_new (o : pyobj) : bool :=
  match o with
  | PCallable _ _ ObjectNew => true
  | _ => false
  end.

(** [isinstance(obj, type)], [inspect.isfunction], [inspect.ismethod],
    [isinstance(obj, method_types)] and
    [type(func) is type(str.__dict__['__add__'])]. *)
Definition is_class (o : pyobj) : bool :=
  match o with PClass _ => true | _ => false end.
Definition isfunction (o : pyobj) : bool :=
  match o with PFunction _ _ _ _ => true | _ => false end.
Definition ismethod (o : pyobj) : bool :=
  match o with PMethod _ _ => true | _ => false end.
Definition is_method_type (o : pyobj) : bool :=
  match o with
  | PClassMethod _ | PStaticMethod _ | PMethod _ _ => true
  | _ => false
  end.
Definition is_wrapper_descriptor (o : pyobj) : bool :=
  match o with PWrapperDescriptor _ _ _ => true | _ => false end.

(** [o.__name__] and [o.__doc__]. *)
Fixpoint name_of (h : heap) (o : pyobj) : result string :=
  match o with
  | PData _ (Some n) _ | PCallable (Some n) _ _ => Ok n
  | PFunction n _ _ _ | PWrapperDescriptor n _ _ => Ok n
  | PClassMethod f | PStaticMethod f | PMethod f _ => name_of h f
  | PClass c =>
      match h !! c with
      | Some k => Ok (cls_name k)
      | None => Raise SystemError
      end
  | _ => Raise AttributeError
  end.

Fixpoint doc_of (h : heap) (o : pyobj) : option string :=
  match o with
  | PNone => None
  | PData _ _ d | PFunction _ d _ _ | PWrapperDescriptor _ d _
  | PCallable _ d _ => d
  | PClassMethod f | PStaticMethod f | PMethod f _ => doc_of h f
  | PInstance c _ | PClass c => k ← h !! c; cls_doc k
  end.

Definition set_function_doc (o : pyobj) (d : option string) : pyobj :=
  match o with
  | PFunction n _ w c => PFunction n d w c
  | _ => o
  end.

(** Attribute lookup on a class: its own namespace, then its bases, then
    [object]; and the descriptor protocol for an access through the class
    or through an instance. *)
Fixpoint bases_lookup (h : heap) (bases : list loc) (name : string)
  : option pyobj :=
  match bases with
  | [] => None
  | b :: bs =>
      match kb ← h !! b; cls_dict kb !! name with
      | Some o => Some o
      | None => bases_lookup h bs name
      end
  end.

Definition mro_lookup (h : heap) (k : class_obj) (name : string) : option pyobj :=
  match cls_dict k !! name with
  | Some o => Some o
  | None => bases_lookup h (cls_mro k) name
  end.

Definition object_attr (name : string) : result pyobj :=
  if String.eqb name "__new__" then Ok object_new
  else if String.eqb name "__init__" then Ok object_init
  else Raise AttributeError.

Definition type_lookup (h : heap) (c : loc) (name : string) : result pyobj :=
  match h !! c with
  | None => Raise SystemError
  | Some k =>
      match mro_lookup h k name with
      | Some o => Ok o
      | None => object_attr name
      end
  end.

Definition bind_class (c : loc) (o : pyobj) : pyobj :=
  match o with
  | PStaticMethod f => f
  | PClassMethod f => PMethod f (PClass c)
  | _ => o
  end.

Definition bind_instance (obj : pyobj) (c : loc) (o : pyobj) : pyobj :=
  match o with
  | PFunction _ _ _ _ | PWrapperDescriptor _ _ _ => PMethod o obj
  | PStaticMethod f => f
  | PClassMethod f => PMethod f (PClass c)
  | _ => o
  end.

(** [cls.name] *)
Definition class_getattr (h : heap) (c : loc) (name : string) : result pyobj :=
  bind_class c <$> type_lookup h c name.

Definition with_dict (k : class_obj) (d : gmap string pyobj) : class_obj :=
  {| cls_name := cls_name k; cls_doc := cls_doc k; cls_native := cls_native k;
     cls_mro := cls_mro k; cls_dict := d |}.

Definition with_doc (k : class_obj) (d : option string) : class_obj :=
  {| cls_name := cls_name k; cls_doc := d; cls_native := cls_native k;
     cls_mro := cls_mro k; cls_dict := cls_dict k |}.

(** [cls.name = v] *)
Definition class_setattr (h : heap) (c : loc) (name : string) (v : pyobj)
  : heap * result unit :=
  match h !! c with
  | None => (h, Raise SystemError)
  | Some k =>
      if cls_native k then (h, Raise TypeError)
      else (<[c := with_dict k (<[name := v]> (cls_dict k))]> h, Ok tt)
  end.

(** [cls.__doc__ = d] *)
Definition class_set_doc (h : heap) (c : loc) (d : option string)
  : heap * result unit :=
  match h !! c with
  | None => (h, Raise SystemError)
  | Some k =>
      if cls_native k then (h, Raise TypeError)
      else (<[c := with_doc k d]> h, Ok tt)
  end.

Definition isinstance (h : heap) (obj : pyobj) (c : loc) : bool :=
  match obj with
  | PInstance c' _ =>
      bool_decide (c' = c)
      || match h !! c' with
         | Some k => bool_decide (c ∈ cls_mro k)
         | None => false
         end
  | _ => false
  end.

(** ** Calling objects *)

Section Calls.

Variable U : Type.

(** The behaviour of the code that is wrapped, under the current classes. *)
Variable prim_call : heap -> prim -> call_args -> state U -> outcome * state U.

(** A call of an object that is not a class, and the body of a function
    object.  The second case of [exec] is the body of [deprecated_func].
    A bound method passes its instance first; a static method object can
    be called as it is, a class method object only once it is bound (the
    behaviour of Python 3.10 and later, which [name_of] and [doc_of]
    follow as well); a class called from here is left to the
    environment. *)
Fixpoint call (h : heap) (o : pyobj) (a : call_args) (st : state U)
  : outcome * state U :=
  match o with
  | PFunction _ _ _ code => exec h code a st
  | PWrapperDescriptor _ _ p | PCallable _ _ p => prim_call h p a st
  | PMethod f self => call h f (with_self self a) st
  | PStaticMethod f => call h f a st
  | PClass c => prim_call h (Instantiate c) a st
  | PNone | PData _ _ _ | PInstance _ _ | PClassMethod _ =>
      (Raised TypeError, st)
  end
with exec (h : heap) (code : fcode) (a : call_args) (st : state U)
  : outcome * state U :=
  match code with
  | Source p => prim_call h p a st
  | DeprecatedFunc message pending pending_warning_type warning_type func =>
      let category :=
        if pending then pending_warning_type else warning_type in
      let st := warnings_warn message category 2 st in
      call h func a st
  end.

(** Instantiation of a class: the allocator found on the class, then, when
    it returned an instance of the class, the initializer found on the
    type of that instance, which must return [None]. *)
Definition run_init (h : heap) (init obj : pyobj) (a : call_args)
  (st : state U) : outcome * state U :=
  match call h init a st with
  | (Returned PNone, st2) => (Returned obj, st2)
  | (Returned _, st2) => (Raised TypeError, st2)
  | (Raised e, st2) => (Raised e, st2)
  end.

Definition construct (h : heap) (c : loc) (new : pyobj) (a : call_args)
  (st : state U) : outcome * state U :=
  match call h new (with_self (PClass c) a) st with
  | (Returned obj, st1) =>
      match obj with
      | PInstance c' _ =>
          if isinstance h obj c then
            match type_lookup h c' "__init__" with
            | Raise e => (Raised e, st1)
            | Ok init => run_init h (bind_instance obj c' init) obj a st1
            end
          else (Returned obj, st1)
      | _ => (Returned obj, st1)
      end
  | (Raised e, st1) => (Raised e, st1)
  end.

Definition type_call (h : heap) (c : loc) (a : call_args) (st : state U)
  : outcome * state U :=
  match class_getattr h c "__new__" with
  | Raise e => (Raised e, st)
  | Ok new => construct h c new a st
  end.

End Calls.

(** ** [get_removal_version] and the decorator factory *)

(** [a, b = parts] *)
Definition unpack2 {A} (parts : list A) : result (A * A) :=
  match parts with
  | [a; b] => Ok (a, b)
  | _ => Raise ValueError
  end.

Definition get_removal_version (since : string) : result (Z * Z) :=
  '(since_major, since_minor) ← unpack2 (take 2 (Py.split Py.chr_dot since));
  let since_lts := String.eqb since_minor "0" in
  if since_lts then
    major ← Py.int since_major;
    minor ← (fun m => m + 1) <$> Py.int since_minor;
    Ok (major, minor)
  else
    major ← (fun m => m + 1) <$> Py.int since_major;
    let minor := 1 in
    Ok (major, minor).

(** The [message] argument: a string, or any other object. *)
Inductive message_arg : Type :=
| MsgStr (s : string)
| MsgObj (o : pyobj).

(** [not message] and [type(message) is type(deprecate)]. *)
Definition message_falsy (m : message_arg) : bool :=
  match m with
  | MsgStr s => String.eqb s ""
  | MsgObj PNone => true
  | MsgObj _ => false
  end.

Definition message_is_function (m : message_arg) : bool :=
  match m with
  | MsgObj o => isfunction o
  | MsgStr _ => false
  end.

Definition message_format (m : message_arg) (kwargs : list (string * string))
  : result string :=
  match m with
  | MsgStr s => Py.format s (Py.dict_get kwargs)
  | MsgObj _ => Raise AttributeError
  end.

(** What [functools.wraps(wrapped)(wrapper)] does to the attributes kept by
    the model: [__name__] is copied when [wrapped] has one, [__doc__] is
    copied, [__wrapped__] is set. *)
Definition functools_wraps (h : heap) (wrapped wrapper : pyobj) : pyobj :=
  match wrapper with
  | PFunction n _ _ code =>
      PFunction (match name_of h wrapped with Ok n' => n' | Raise _ => n end)
        (doc_of h wrapped) (Some wrapped) code
  | _ => wrapper
  end.

Section Deprecated.

(** [textwrap.dedent] *)
Variable dedent : string -> string.

(** The variables of [_deprecated] its inner functions close over. *)
Variable since : string.
Variable pending : bool.
Variable removal_version : option string.
Variable obj_type : option string.
Variable pending_warning_type : warning_category.

Definition deprecate_doc (old_doc : option string) (message : string) : string :=
  let old_doc := match old_doc with Some d => d | None => "" end in
  let old_doc := Py.strip_newlines (dedent old_doc) in
  let new_doc :=
    (Py.nl ++ ".. deprecated:: " ++ since
     ++ Py.nl ++ "    " ++ Py.strip message ++ Py.nl ++ Py.nl) ++ old_doc in
  if String.eqb old_doc "" then new_doc ++ "\ " else new_doc.

Definition get_function (func : pyobj) : pyobj :=
  match func with
  | PClassMethod f | PStaticMethod f | PMethod f _ => f
  | _ => func
  end.

(** [type(func)] applied to the wrapper: [types.MethodType] needs the
    instance as a second argument and fails. *)
Definition func_wrapper (func : pyobj) (f : pyobj) : result pyobj :=
  match func with
  | PClassMethod _ => Ok (PClassMethod f)
  | PStaticMethod _ => Ok (PStaticMethod f)
  | PMethod _ _ => Raise TypeError
  | _ => Ok f
  end.

Definition deprecate_function (h : heap) (func : pyobj) (message : string)
  (warning_type : warning_category) : result pyobj :=
  let func_wrapper := func_wrapper func in
  let func := get_function func in
  let deprecated_func :=
    PFunction "deprecated_func" None None
      (DeprecatedFunc message pending pending_warning_type warning_type func) in
  let deprecated_func :=
    if negb (is_wrapper_descriptor func)
    then functools_wraps h func deprecated_func
    else deprecated_func in
  let deprecated_func :=
    set_function_doc deprecated_func
      (Some (deprecate_doc (doc_of h deprecated_func) message)) in
  func_wrapper deprecated_func.

Definition deprecate_class (h : heap) (cls : loc) (message : string)
  (warning_type : warning_category) : heap * result pyobj :=
  let doc := k ← h !! cls; cls_doc k in
  match class_set_doc h cls (Some (deprecate_doc doc message)) with
  | (h, Raise e) => (h, Raise e)
  | (h, Ok _) =>
      (* cls.entry = deprecate_function(get_function(cls.entry), ...) *)
      let rewrap (entry : string) : heap * result pyobj :=
        match
          original ← class_getattr h cls entry;
          deprecate_function h (get_function original) message warning_type
        with
        | Raise e => (h, Raise e)
        | Ok wrapper =>
            match class_setattr h cls entry wrapper with
            | (h, Raise e) => (h, Raise e)
            | (h, Ok _) => (h, Ok (PClass cls))
            end
        end in
      match class_getattr h cls "__new__" with
      | Raise e => (h, Raise e)
      | Ok new =>
          if is_object_new new then rewrap "__init__" else rewrap "__new__"
      end
  end.

Definition obj_type_name (obj : pyobj) : string :=
  match obj_type with
  | None =>
      if is_class obj then "class"
      else if isfunction obj then "function"
      else if ismethod obj || is_method_type obj then "method"
      else "object"
  | Some t => t
  end.

(** The part of [deprecate] that builds the text of the warning. *)
Definition deprecation_message (h : heap) (obj : pyobj)
  (message : message_arg) (name alternative : string) (pending : bool)
  : result string :=
  name ← (if String.eqb name "" then name_of h (get_function obj)
          else Ok name);
  let default := message_falsy message || message_is_function message in
  let message :=
    if default then
      if pending then
        MsgStr ("The {func} {obj_type} will be deprecated in "
                ++ "version {deprecated_version}.")
      else
        MsgStr ("The {func} {obj_type} is deprecated and may "
                ++ "be removed in {future_version}.")
    else message in
  let altmessage :=
    if default && negb (String.eqb alternative "")
    then Py.nl ++ "        Use " ++ alternative ++ " instead."
    else "" in
  let future_version :=
    match removal_version with
    | None => "a future version"
    | Some v => "version " ++ v
    end in
  message ← message_format message
    [("func", name); ("name", name); ("deprecated_version", since);
     ("future_version", future_version); ("alternative", alternative);
     ("obj_type", obj_type_name obj)];
  Ok (message ++ altmessage).

Definition deprecate (h : heap) (obj : pyobj) (message : message_arg)
  (name alternative : string) (pending : bool)
  (warning_type : warning_category) : heap * result pyobj :=
  match deprecation_message h obj message name alternative pending with
  | Raise e => (h, Raise e)
  | Ok message =>
      match obj with
      | PClass cls => deprecate_class h cls message warning_type
      | _ => (h, deprecate_function h obj message warning_type)
      end
  end.

End Deprecated.

(** The closure [deprecate] returned by [_deprecated]: the variables it
    captured, which are also the defaults of its own keyword arguments. *)
Record decorator : Type := Decorator {
  d_since : string;
  d_message : message_arg;
  d_name : string;
  d_alternative : string;
  d_pending : bool;
  d_removal_version : option string;
  d_obj_type : option string;
  d_warning_type : warning_category;
  d_pending_warning_type : warning_category
}.

(** The decorator applied to its target, all keywords at their defaults. *)
Definition decorate (dedent : string -> string) (d : decorator) (h : heap)
  (obj : pyobj) : heap * result pyobj :=
  deprecate dedent (d_since d) (d_pending d) (d_removal_version d)
    (d_obj_type d) (d_pending_warning_type d) h obj (d_message d) (d_name d)
    (d_alternative d) (d_pending d) (d_warning_type d).

(** What the factory returns: the decorator, or the wrapped target when the
    message was a function. *)
Inductive factory_result : Type :=
| ReturnsDecorator (d : decorator)
| ReturnsWrapped (o : pyobj).

Definition _deprecated (dedent : string -> string) (since : string)
  (message : message_arg) (name alternative : string) (pending : bool)
  (removal_version obj_type : option string)
  (warning_type pending_warning_type : warning_category) (h : heap)
  : heap * result factory_result :=
  let deprecate :=
    Decorator since message name alternative pending removal_version obj_type
      warning_type pending_warning_type in
  match message with
  | MsgObj (PFunction n d w c as f) =>
      match decorate dedent deprecate h f with
      | (h, r) => (h, ReturnsWrapped <$> r)
      end
  | _ => (h, Ok (ReturnsDecorator deprecate))
  end.

Definition deprecated (dedent : string -> string) (since : string)
  (message : message_arg) (name alternative : string) (pending : bool)
  (obj_type : option string) (h : heap) : heap * result factory_result :=
  match get_removal_version since with
  | Raise e => (h, Raise e)
  | Ok (major, minor) =>
      let removal_version :=
        Py.str_of_int major ++ "." ++ Py.str_of_int minor in
      _deprecated dedent since message name alternative pending
        (Some removal_version) obj_type SunpyDeprecationWarning
        SunpyPendingDeprecationWarning h
  end.

(** ** [add_common_docstring] *)

Module add_common_docstring.

Record t : Type := Make {
  append : option string;
  prepend : option string;
  kwargs : gmap string string
}.

Definition __init__ (append prepend : option string)
  (kwargs : gmap string string) : t :=
  {| append := append; prepend := prepend; kwargs := kwargs |}.

(** [x if x else ''] *)
Definition or_empty (x : option string) : string :=
  match x with
  | Some s => s
  | None => ""
  end.

(** [self(func)] for a Python function: the composer and the function
    as the call leaves them, and what the call returns.  Documentation is
    a string or [None], so the [isinstance(func.__doc__, str)] tests hold
    once the first line has run. *)
Definition __call__ (self : t) (func : pyobj) : (t * pyobj) * result pyobj :=
  match func with
  | PFunction name doc wrapped code =>
      let set_doc d := PFunction name (Some d) wrapped code in
      let doc := or_empty doc in
      let self := {| append := Some (or_empty (append self));
                     prepend := prepend self; kwargs := kwargs self |} in
      let self := {| append := append self;
                     prepend := Some (or_empty (prepend self));
                     kwargs := kwargs self |} in
      let doc :=
        if negb (String.eqb (or_empty (append self)) "")
        then doc ++ or_empty (append self) else doc in
      let doc :=
        if negb (String.eqb (or_empty (prepend self)) "")
        then or_empty (prepend self) ++ doc else doc in
      if bool_decide (kwargs self = ∅) then
        (self, set_doc doc, Ok (set_doc doc))
      else
        match Py.format doc (fun k => kwargs self !! k) with
        | Ok doc => (self, set_doc doc, Ok (set_doc doc))
        | Raise e => (self, set_doc doc, Raise e)
        end
  | _ => (self, func, Raise NotModelled)
  end.

End add_common_docstring.

(** ** The constants registry *)

Module constants.

Section Registry.

(** The floating-point magnitudes are not interpreted. *)
Variable magnitude : Type.

Record ConstantRecord : Type := {
  name : string;
  aliases : list string;
  value : magnitude;
  unit : string;
  uncertainty : option magnitude;
  reference : string
}.

(** Modelled from the spec: the registry module [sunpy.sun.constants]
    is not among the sources.  The registry is the table of records in
    registration order, keyed by canonical name. *)
Definition registry : Type := list ConstantRecord.

Definition matches (substring : string) (r : ConstantRecord) : bool :=
  let x := Py.lower substring in
  Py.contains x (Py.lower (name r))
  || existsb (fun a => Py.contains x (Py.lower a)) (aliases r).

(** Modelled from the spec: [find] of the absent registry module.  With
    no argument, all registered names; with an argument, the names
    whose canonical name or any alias contains it, case-insensitively. *)
Definition find (reg : registry) (substring : option string) : list string :=
  match substring with
  | None => name <$> reg
  | Some x => name <$> List.filter (matches x) reg
  end.

(** Modelled from the spec: [get] of the absent registry module.  Exact
    lookup by registered name, a lookup error otherwise. *)
Definition get (reg : registry) (n : string) : result ConstantRecord :=
  match List.find (fun r => String.eqb (name r) n) reg with
  | Some r => Ok r
  | None => Raise LookupError
  end.

End Registry.

Arguments name {magnitude} _.
Arguments aliases {magnitude} _.
Arguments matches {magnitude} _ _.
Arguments find {magnitude} _ _.
Arguments get {magnitude} _ _.

End constants.

(** ** Vocabulary of the statements *)

(** No ['.'] occurs in [s]. *)
Definition no_dot (s : string) : Prop :=
  Py.has_char (fun c => Ascii.eqb c Py.chr_dot) s = false.

(** [callable(o)] *)
Definition is_callable (o : pyobj) : bool :=
  match o with
  | PFunction _ _ _ _ | PWrapperDescriptor _ _ _ | PCallable _ _ _
  | PStaticMethod _ | PMethod _ _ | PClass _ => true
  | PNone | PData _ _ _ | PInstance _ _ | PClassMethod _ => false
  end.

(** The category the wrappers made by a decorator warn with. *)
Definition category_of (d : decorator) : warning_category :=
  if d_pending d then d_pending_warning_type d else d_warning_type d.

(** The clause of the warning as the specification words it: the removal
    version in both templates.  Only used to compare with the code. *)
Definition stated_clause (pending : bool) (removal_version : string) : string :=
  if pending then "will be deprecated in " ++ removal_version
  else "is deprecated and may be removed in " ++ removal_version.

(** ** A small environment to run the definitions in *)

Module Sample.

(** The state beyond the warnings is a counter of allocated instances.
    [object.__new__] allocates, [object.__init__] and the code numbered
    zero return [None], any other code returns a datum. *)
Definition prim_call (h : heap) (p : prim) (a : call_args) (st : state nat)
  : outcome * state nat :=
  match p with
  | ObjectNew =>
      match positional a with
      | PClass c :: _ =>
          (Returned (PInstance c (user st)),
           {| warnings := warnings st; user := S (user st) |})
      | _ => (Raised TypeError, st)
      end
  | ObjectInit | UserCode 0 => (Returned PNone, st)
  | UserCode n => (Returned (PData n None None), st)
  | Instantiate _ => (Raised NotModelled, st)
  end.

Definition no_args : call_args := {| positional := []; keywords := [] |}.
Definition start : state nat := {| warnings := []; user := 0%nat |}.

Definition greet : pyobj :=
  PFunction "greet" (Some "Say hello.") None (Source (UserCode 7)).

(** A class with an initializer of its own and the default allocator. *)
Definition Telescope : class_obj :=
  {| cls_name := "Telescope"; cls_doc := Some "An instrument.";
     cls_native := false; cls_mro := [];
     cls_dict :=
       {[ "__init__" := PFunction "__init__" None None (Source (UserCode 0));
          "aperture" := PData 3 None None ]} |}.

(** A class with an allocator of its own. *)
Definition Singleton : class_obj :=
  {| cls_name := "Singleton"; cls_doc := None;
     cls_native := false; cls_mro := [];
     cls_dict :=
       {[ "__new__" :=
            PStaticMethod
              (PFunction "__new__" None None (Source (UserCode 5))) ]} |}.

Definition classes : heap := {[ 1%positive := Telescope; 2%positive := Singleton ]}.

Definition since_1_0 (pending : bool) : decorator :=
  Decorator "1.0" (MsgStr "") "" "" pending (Some "1.1") None
    SunpyDeprecationWarning SunpyPendingDeprecationWarning.

Definition identity (s : string) : string := s.

(** A composer with one substitution, and a documented function. *)
Definition composer : add_common_docstring.t :=
  add_common_docstring.__init__ (Some " See {ref}.") (Some "Note. ")
    {[ "ref" := "the guide" ]}.

(** A registry of three constants; magnitudes are integers here. *)
Definition table : constants.registry Z :=
  [ {| constants.name := "mass"; constants.aliases := ["solar mass"];
       constants.value := 2; constants.unit := "kg";
       constants.uncertainty := None; constants.reference := "IAU 2015" |};
    {| constants.name := "radius"; constants.aliases := ["R_sun"];
       constants.value := 7; constants.unit := "m";
       constants.uncertainty := None; constants.reference := "IAU 2015" |};
    {| constants.name := "luminosity"; constants.aliases := [];
       constants.value := 4; constants.unit := "W";
       constants.uncertainty := Some 1; constants.reference := "IAU 2015" |} ].

End Sample.

(** ** Vocabulary for custom messages *)

(** Neither brace occurs in [s]. *)
Definition brace_free (s : string) : bool :=
  negb (Py.has_char (fun c => Ascii.eqb c "{"%char || Ascii.eqb c "}"%char) s).




(** ** More classes and targets to run the definitions on *)

Module Cases.

(** A subclass of [Sample.Telescope] that defines nothing of its own. *)
Definition Refractor : class_obj :=
  {| cls_name := "Refractor"; cls_doc := None; cls_native := false;
     cls_mro := [1%positive]; cls_dict := ∅ |}.

(** An extension type. *)
Definition Native : class_obj :=
  {| cls_name := "ndarray"; cls_doc := Some "An array."; cls_native := true;
     cls_mro := []; cls_dict := ∅ |}.

Definition classes : heap :=
  <[3%positive := Refractor]> (<[4%positive := Native]> Sample.classes).

(** A bound method, a class method and a static method of [Sample.greet]. *)
Definition bound_greet : pyobj := PMethod Sample.greet (PInstance 1%positive 0).
Definition class_greet : pyobj := PClassMethod Sample.greet.
Definition static_greet : pyobj := PStaticMethod Sample.greet.

(** A slot wrapper, as [object.__init__] or [str.__add__]. *)
Definition slot : pyobj := PWrapperDescriptor "__add__" (Some "Return self+value.") (UserCode 9).

(** A class whose initializer is a class method around a bound method. *)
Definition Odd : class_obj :=
  {| cls_name := "Odd"; cls_doc := Some "Odd one."; cls_native := false;
     cls_mro := [];
     cls_dict := {[ "__init__" := PClassMethod bound_greet ]} |}.

Definition odd_classes : heap := {[ 5%positive := Odd ]}.


End Cases.

(** * Properties *)

(** ** Strings *)

Section StringFacts.

Implicit Types (s r : string) (c sep : ascii) (p : ascii -> bool).

Lemma append_empty_l s : "" ++ s = s.
Proof. reflexivity. Qed.

Lemma append_cons c s r : String c s ++ r = String c (s ++ r).
Proof. reflexivity. Qed.

Lemma has_char_cons p c s :
  Py.has_char p (String c s) = p c || Py.has_char p s.
Proof. reflexivity. Qed.

Lemma split_without_separator sep s :
  Py.has_char (fun c => Ascii.eqb c sep) s = false ->
  Py.split sep s = [s].
Proof.
  induction s as [|c s IH]; [reflexivity|].
  rewrite has_char_cons. intros [Hc Hs]%orb_false_iff.
  cbn [Py.split]. rewrite Hc, (IH Hs). reflexivity.
Qed.

Lemma split_at_first_separator sep s r :
  Py.has_char (fun c => Ascii.eqb c sep) s = false ->
  Py.split sep (s ++ String sep r) = s :: Py.split sep r.
Proof.
  induction s as [|c s IH]; intros H.
  - rewrite append_empty_l. cbn [Py.split]. rewrite Ascii.eqb_refl. reflexivity.
  - rewrite has_char_cons in H. apply orb_false_iff in H as [Hc Hs].
    rewrite append_cons. cbn [Py.split]. rewrite Hc, (IH Hs). reflexivity.
Qed.

Lemma has_char_lstrip p q s :
  (forall c, p c = true -> q c = false) ->
  Py.has_char q (Py.lstrip_with p s) = Py.has_char q s.
Proof.
  intros Hpq. induction s as [|c s IH]; [reflexivity|].
  cbn [Py.lstrip_with]. destruct (p c) eqn:Hp; [|reflexivity].
  rewrite has_char_cons, (Hpq c Hp), IH. reflexivity.
Qed.

Lemma has_char_rev_onto q s acc :
  Py.has_char q (Py.string_rev_onto s acc)
  = Py.has_char q s || Py.has_char q acc.
Proof.
  revert acc. induction s as [|c s IH]; intros acc; [reflexivity|].
  cbn [Py.string_rev_onto]. rewrite IH, !has_char_cons.
  destruct (q c), (Py.has_char q s), (Py.has_char q acc); reflexivity.
Qed.

Lemma has_char_rev q s : Py.has_char q (Py.string_rev s) = Py.has_char q s.
Proof.
  unfold Py.string_rev. rewrite has_char_rev_onto.
  cbn. apply orb_false_r.
Qed.

Lemma has_char_strip p q s :
  (forall c, p c = true -> q c = false) ->
  Py.has_char q (Py.strip_with p s) = Py.has_char q s.
Proof.
  intros Hpq. unfold Py.strip_with, Py.rstrip_with.
  rewrite has_char_rev, (has_char_lstrip p q _ Hpq), has_char_rev.
  apply has_char_lstrip, Hpq.
Qed.

Lemma dot_is_not_space c :
  Py.is_space c = true -> Ascii.eqb c Py.chr_dot = false.
Proof.
  destruct (Ascii.eqb c Py.chr_dot) eqn:E; [|reflexivity].
  apply Ascii.eqb_eq in E. subst c. discriminate.
Qed.

Lemma parse_digits_no_dot s : forall acc b z,
  Py.parse_digits acc b s = Some z -> no_dot s.
Proof.
  unfold no_dot.
  induction s as [|c s IH]; intros acc b z H; [reflexivity|].
  rewrite has_char_cons. cbn [Py.parse_digits] in H.
  destruct (Ascii.eqb c Py.chr_dot) eqn:E.
  - apply Ascii.eqb_eq in E. subst c. discriminate.
  - cbn [orb]. destruct (Ascii.eqb c "_"%char).
    + destruct b; [eauto|discriminate].
    + destruct (Py.digit_of c); [eauto|discriminate].
Qed.

Lemma parse_signed_no_dot s z : Py.parse_signed s = Some z -> no_dot s.
Proof.
  destruct s as [|c s]; [intros _; reflexivity|].
  destruct (Ascii.eqb c "-"%char) eqn:Em;
    [apply Ascii.eqb_eq in Em; subst c|].
  { cbn. destruct (Py.parse_digits 0 false s) eqn:E; [|discriminate].
    intros _. exact (parse_digits_no_dot _ _ _ _ E). }
  destruct (Ascii.eqb c "+"%char) eqn:Ep;
    [apply Ascii.eqb_eq in Ep; subst c|].
  { cbn. apply parse_digits_no_dot. }
  intros H. apply (parse_digits_no_dot _ 0 false z).
  revert H Em Ep. unfold Py.parse_signed.
  destruct c as [[] [] [] [] [] [] [] []]; try discriminate; auto.
Qed.

(** A string [int] accepts has no ['.'] in it. *)
Lemma int_no_dot s z : Py.int s = Ok z -> no_dot s.
Proof.
  unfold Py.int. destruct (Py.parse_signed (Py.strip s)) eqn:E; [|discriminate].
  intros _. apply parse_signed_no_dot in E. unfold no_dot, Py.strip in *.
  rewrite has_char_strip in E; [exact E|]. apply dot_is_not_space.
Qed.

(** [int] fails with [ValueError] only. *)
Lemma int_error s e : Py.int s = Raise e -> e = ValueError.
Proof.
  unfold Py.int. destruct (Py.parse_signed (Py.strip s)); congruence.
Qed.

End StringFacts.

(** ** The removal version *)

Section RemovalVersion.

Lemma get_removal_version_components M m :
  no_dot M -> no_dot m ->
  get_removal_version (M ++ "." ++ m)
  = (if String.eqb m "0" then
       major ← Py.int M; minor ← (fun k => k + 1) <$> Py.int m;
       Ok (major, minor)
     else
       major ← (fun k => k + 1) <$> Py.int M; Ok (major, 1)).
Proof.
  intros HM Hm. unfold get_removal_version.
  change (M ++ "." ++ m) with (M ++ String Py.chr_dot m).
  rewrite (split_at_first_separator _ _ _ HM).
  rewrite (split_without_separator _ _ Hm). reflexivity.
Qed.

Lemma int_of_zero_string : Py.int "0" = Ok 0.
Proof. reflexivity. Qed.

(** With a message that is not a function, [deprecated] hands the
    formatted removal version to the decorator it returns. *)
Lemma deprecated_returns_decorator dedent since message name alternative
  pending obj_type h major minor :
  get_removal_version since = Ok (major, minor) ->
  message_is_function message = false ->
  deprecated dedent since message name alternative pending obj_type h
  = (h, Ok (ReturnsDecorator
              (Decorator since message name alternative pending
                 (Some (Py.str_of_int major ++ "." ++ Py.str_of_int minor))
                 obj_type SunpyDeprecationWarning
                 SunpyPendingDeprecationWarning))).
Proof.
  intros Hv Hm. unfold deprecated, _deprecated. rewrite Hv.
  destruct message as [s|o]; [reflexivity|].
  destruct o; try reflexivity. discriminate.
Qed.

(** C2: [get_removal_version] splits [since] at the dot.  For a numeric
    major part [M], the version [M.0] is removed in [(M, 1)], rendered
    [M.1], and the version [M.m] with [m] a number other than zero is
    removed in [(M + 1, 1)]; so ["1.0"] gives ["1.1"] and ["1.3"] gives
    ["2.1"]. *)
Theorem removal_version_policy (M m : string) (zM zm : Z) :
  Py.int M = Ok zM ->
  (m = "0" ->
     get_removal_version (M ++ "." ++ m) = Ok (zM, 1)
     /\ forall dedent message name alternative pending obj_type h,
          message_is_function message = false ->
          exists d,
            deprecated dedent (M ++ "." ++ m) message name alternative
              pending obj_type h = (h, Ok (ReturnsDecorator d))
            /\ d_removal_version d = Some (Py.str_of_int zM ++ ".1"))
  /\ (Py.int m = Ok zm -> zm <> 0 ->
      get_removal_version (M ++ "." ++ m) = Ok (zM + 1, 1)
      /\ forall dedent message name alternative pending obj_type h,
           message_is_function message = false ->
           exists d,
             deprecated dedent (M ++ "." ++ m) message name alternative
               pending obj_type h = (h, Ok (ReturnsDecorator d))
             /\ d_removal_version d
                = Some (Py.str_of_int (zM + 1) ++ ".1"))
  /\ (forall dedent message name alternative pending obj_type h,
        message_is_function message = false ->
        exists d1 d2,
          deprecated dedent "1.0" message name alternative pending
            obj_type h = (h, Ok (ReturnsDecorator d1))
          /\ d_removal_version d1 = Some "1.1"
          /\ deprecated dedent "1.3" message name alternative pending
               obj_type h = (h, Ok (ReturnsDecorator d2))
          /\ d_removal_version d2 = Some "2.1").
Proof.
  intros HM. pose proof (int_no_dot _ _ HM) as HdM.
  split; [|split].
  - intros ->.
    assert (Hv : get_removal_version (M ++ "." ++ "0") = Ok (zM, 1)).
    { rewrite get_removal_version_components by (exact HdM || reflexivity).
      cbn [String.eqb Ascii.eqb Bool.eqb]. rewrite HM. reflexivity. }
    split; [exact Hv|]. intros dedent message name alternative pending obj_type h Hf.
    eexists. split; [apply deprecated_returns_decorator; eassumption|].
    reflexivity.
  - intros Hm Hz. pose proof (int_no_dot _ _ Hm) as Hdm.
    assert (Hv : get_removal_version (M ++ "." ++ m) = Ok (zM + 1, 1)).
    { rewrite get_removal_version_components by assumption.
      destruct (String.eqb m "0") eqn:E.
      - apply String.eqb_eq in E. subst m.
        rewrite int_of_zero_string in Hm. congruence.
      - rewrite HM. reflexivity. }
    split; [exact Hv|]. intros dedent message name alternative pending obj_type h Hf.
    eexists. split; [apply deprecated_returns_decorator; eassumption|].
    reflexivity.
  - intros dedent message name alternative pending obj_type h Hf.
    do 2 eexists. split; [|split; [|split]].
    + apply (deprecated_returns_decorator _ "1.0" _ _ _ _ _ _ 1 1);
        [reflexivity|exact Hf].
    + reflexivity.
    + apply (deprecated_returns_decorator _ "1.3" _ _ _ _ _ _ 2 1);
        [reflexivity|exact Hf].
    + reflexivity.
Qed.

Lemma removal_version_policy_witness :
  get_removal_version "4.0" = Ok (4, 1)
  /\ get_removal_version "2.5" = Ok (3, 1).
Proof.
  split.
  - exact (proj1 (proj1 (removal_version_policy "4" "0" 4 0 eq_refl)
                    eq_refl)).
  - refine (proj1 (proj1 (proj2 (removal_version_policy "2" "5" 2 5 eq_refl))
                     eq_refl _)).
    discriminate.
Defined.

(** The test on the minor part compares strings: a minor part that is
    zero but is not written ["0"] takes the other branch. *)
Example removal_version_padded_minor :
  get_removal_version "1.00" = Ok (2, 1).
Proof. reflexivity. Qed.

End RemovalVersion.

(** ** Malformed versions *)

Section MalformedSince.

(** C6, counterexample: the minor part ["x"] of ["1.x"] is not a number,
    and [deprecated] returns a decorator all the same. *)
Lemma non_numeric_minor_accepted :
  Py.int "x" = Raise ValueError
  /\ get_removal_version "1.x" = Ok (2, 1)
  /\ deprecated (fun s => s) "1.x" (MsgStr "") "" "" false None ∅
     = (∅, Ok (ReturnsDecorator
                 (Decorator "1.x" (MsgStr "") "" "" false (Some "2.1") None
                    SunpyDeprecationWarning
                    SunpyPendingDeprecationWarning))).
Proof. repeat split. Qed.

(** C6, amended: a [since] whose major part (the text before the first
    dot) is not a number, or that has no dot, makes [deprecated] fail
    with [ValueError] before anything is wrapped; the minor part is parsed
    only when it is exactly ["0"], so any other minor part, numeric or
    not, is accepted and the removal version is [(major + 1).1]. *)
Theorem malformed_since dedent since message name alternative pending
  obj_type h :
  (forall major rest,
     Py.split Py.chr_dot since = major :: rest ->
     Py.int major = Raise ValueError ->
     deprecated dedent since message name alternative pending obj_type h
     = (h, Raise ValueError))
  /\ (no_dot since ->
      deprecated dedent since message name alternative pending obj_type h
      = (h, Raise ValueError))
  /\ (forall M m zM,
        since = M ++ "." ++ m ->
        Py.int M = Ok zM -> no_dot m -> m <> "0" ->
        message_is_function message = false ->
        exists d,
          deprecated dedent since message name alternative pending
            obj_type h = (h, Ok (ReturnsDecorator d))
          /\ d_removal_version d = Some (Py.str_of_int (zM + 1) ++ ".1")).
Proof.
  split; [|split].
  - intros major rest Hs Hi. unfold deprecated, get_removal_version.
    rewrite Hs. destruct rest as [|m rest]; [reflexivity|].
    change (take 2 (major :: m :: rest)) with (major :: m :: take 0 rest).
    rewrite take_0. cbn -[Py.int String.eqb].
    destruct (String.eqb m "0"); rewrite Hi; reflexivity.
  - intros Hd. unfold deprecated, get_removal_version.
    rewrite (split_without_separator _ _ Hd). reflexivity.
  - intros M m zM -> HM Hm Hne Hf.
    assert (Hv : get_removal_version (M ++ "." ++ m) = Ok (zM + 1, 1)).
    { rewrite get_removal_version_components
        by (assumption || exact (int_no_dot _ _ HM)).
      destruct (String.eqb m "0") eqn:E.
      - apply String.eqb_eq in E. contradiction.
      - rewrite HM. reflexivity. }
    eexists. split; [apply deprecated_returns_decorator; eassumption|].
    reflexivity.
Qed.

Lemma malformed_since_witness :
  deprecated (fun s => s) "one.0" (MsgStr "") "" "" false None ∅
  = (∅, Raise ValueError)
  /\ deprecated (fun s => s) "12" (MsgStr "") "" "" false None ∅
     = (∅, Raise ValueError)
  /\ exists d,
       deprecated (fun s => s) "1.x" (MsgStr "") "" "" false None ∅
       = (∅, Ok (ReturnsDecorator d))
       /\ d_removal_version d = Some "2.1".
Proof.
  split.
  - exact (proj1 (malformed_since (fun s => s) "one.0" (MsgStr "") "" ""
                    false None ∅) "one" ["0"] eq_refl eq_refl).
  - split.
    { exact (proj1 (proj2 (malformed_since (fun s => s) "12" (MsgStr "") ""
                             "" false None ∅)) eq_refl). }
    refine (proj2 (proj2 (malformed_since (fun s => s) "1.x" (MsgStr "") "" ""
                     false None ∅)) "1" "x" 1 eq_refl eq_refl eq_refl _
              eq_refl).
    discriminate.
Defined.

End MalformedSince.

(** ** Wrappers *)

Section Wrappers.

Variable U : Type.
Variable prim_call : heap -> prim -> call_args -> state U -> outcome * state U.
Variable dedent : string -> string.

Local Abbreviation call := (call U prim_call).
Local Abbreviation run_init := (run_init U prim_call).
Local Abbreviation construct := (construct U prim_call).
Local Abbreviation type_call := (type_call U prim_call).

(** One call of the sink adds one record, at the end. *)
Lemma warnings_warn_once message category level (st : state U) :
  warnings (warnings_warn message category level st)
  = (warnings st ++ [Warning message category level])%list
  /\ user (warnings_warn message category level st) = user st.
Proof. split; reflexivity. Qed.

(** The body of [deprecated_func]. *)
Lemma call_deprecated_func h n doc wr message pending pwt wt func a st :
  call h (PFunction n doc wr (DeprecatedFunc message pending pwt wt func)) a st
  = call h func a
      (warnings_warn message (if pending then pwt else wt) 2 st).
Proof. reflexivity. Qed.

(** What [deprecate_function] builds, up to name and documentation. *)
Lemma deprecate_function_shape since pending pwt h func message wt :
  exists n doc wr,
    deprecate_function dedent since pending pwt h func message wt
    = func_wrapper func
        (PFunction n doc wr
           (DeprecatedFunc message pending pwt wt (get_function func))).
Proof.
  unfold deprecate_function.
  destruct (is_wrapper_descriptor (get_function func)); cbn; eauto.
Qed.

Lemma bind_class_plain c o : is_method_type o = false -> bind_class c o = o.
Proof. destruct o; (discriminate || reflexivity). Qed.

(** Reached through a class, the wrapper forwards to what it wraps. *)
Lemma deprecate_function_forwards since pending pwt h func message wt w :
  deprecate_function dedent since pending pwt h func message wt = Ok w ->
  forall h' c a st,
    call h' (bind_class c w) a st
    = call h' (bind_class c func) a
        (warnings_warn message (if pending then pwt else wt) 2 st).
Proof.
  destruct (deprecate_function_shape since pending pwt h func message wt)
    as (n & doc & wr & ->).
  intros Hw h' c a st.
  destruct func; cbn in Hw; try discriminate;
    injection Hw as <-; reflexivity.
Qed.

Lemma deprecate_function_plain since pending pwt h func message wt w :
  deprecate_function dedent since pending pwt h func message wt = Ok w ->
  is_method_type func = false ->
  exists n doc wr,
    w = PFunction n doc wr (DeprecatedFunc message pending pwt wt func).
Proof.
  destruct (deprecate_function_shape since pending pwt h func message wt)
    as (n & doc & wr & ->).
  intros Hw Hm. exists n, doc, wr.
  destruct func; cbn in Hw, Hm; try discriminate;
    injection Hw as <-; reflexivity.
Qed.

(** Applying a decorator: the message is built first, then the target is
    dispatched on. *)
Lemma decorate_success d h obj h' w :
  decorate dedent d h obj = (h', Ok w) ->
  exists message,
    deprecation_message (d_since d) (d_removal_version d) (d_obj_type d) h
      obj (d_message d) (d_name d) (d_alternative d) (d_pending d)
    = Ok message
    /\ match obj with
       | PClass c =>
           deprecate_class dedent (d_since d) (d_pending d)
             (d_pending_warning_type d) h c message (d_warning_type d)
           = (h', Ok w)
       | _ =>
           h' = h
           /\ deprecate_function dedent (d_since d) (d_pending d)
                (d_pending_warning_type d) h obj message (d_warning_type d)
              = Ok w
       end.
Proof.
  unfold decorate, deprecate.
  destruct (deprecation_message _ _ _ _ _ _ _ _ _) as [message|e];
    [|discriminate].
  intros H. exists message. split; [reflexivity|].
  destruct obj; try exact H; apply pair_equal_spec in H as [<- Hw];
    (split; [reflexivity|exact Hw]).
Qed.

(** A target that is not a class: the wrapper warns with the text built
    for it and forwards. *)
Lemma decorated_function_forwards d h obj h' w :
  decorate dedent d h obj = (h', Ok w) ->
  is_class obj = false ->
  exists message,
    deprecation_message (d_since d) (d_removal_version d) (d_obj_type d) h
      obj (d_message d) (d_name d) (d_alternative d) (d_pending d)
    = Ok message
    /\ (forall c a st,
          call h' (bind_class c w) a st
          = call h' (bind_class c obj) a
              (warnings_warn message (category_of d) 2 st))
    /\ (is_method_type obj = false ->
        forall a st,
          call h' w a st
          = call h' obj a (warnings_warn message (category_of d) 2 st)).
Proof.
  intros Hdec Hcls.
  destruct (decorate_success d h obj h' w Hdec) as (message & Hmsg & Hobj).
  exists message. split; [exact Hmsg|].
  assert (Hw : deprecate_function dedent (d_since d) (d_pending d)
                 (d_pending_warning_type d) h obj message (d_warning_type d)
               = Ok w).
  { destruct obj; try discriminate; apply Hobj. }
  split.
  - intros c a st. apply (deprecate_function_forwards _ _ _ _ _ _ _ _ Hw).
  - intros Hm a st.
    pose proof (deprecate_function_forwards _ _ _ _ _ _ _ _ Hw h' 1%positive
                  a st) as H.
    rewrite (bind_class_plain _ obj Hm) in H.
    destruct (deprecate_function_plain _ _ _ _ _ _ _ _ Hw Hm)
      as (n & doc & wr & ->).
    exact H.
Qed.

End Wrappers.

(** ** Classes *)

Section ClassFacts.

Implicit Types (h : heap) (k : class_obj) (c : loc) (name : string).

Lemma bases_lookup_insert h c k k' bs name :
  h !! c = Some k ->
  cls_dict k' !! name = cls_dict k !! name ->
  bases_lookup (<[c := k']> h) bs name = bases_lookup h bs name.
Proof.
  intros Hk Hd. induction bs as [|b bs IH]; [reflexivity|].
  cbn [bases_lookup]. destruct (decide (b = c)) as [->|Hne].
  - rewrite lookup_insert_eq, Hk. cbn. rewrite Hd, IH. reflexivity.
  - rewrite lookup_insert_ne by congruence. rewrite IH. reflexivity.
Qed.

(** Replacing a class by one with the same bases and the same entry for
    [name] changes no lookup of [name]. *)
Lemma type_lookup_insert h c k k' c' name :
  h !! c = Some k ->
  cls_mro k' = cls_mro k ->
  cls_dict k' !! name = cls_dict k !! name ->
  type_lookup (<[c := k']> h) c' name = type_lookup h c' name.
Proof.
  intros Hk Hm Hd. unfold type_lookup, mro_lookup.
  destruct (decide (c' = c)) as [->|Hne].
  - rewrite lookup_insert_eq, Hk, Hd, Hm.
    rewrite (bases_lookup_insert h c k k' _ name Hk Hd). reflexivity.
  - rewrite lookup_insert_ne by congruence.
    destruct (h !! c') as [k0|]; [|reflexivity].
    rewrite (bases_lookup_insert h c k k' _ name Hk Hd). reflexivity.
Qed.

Lemma class_getattr_insert h c k k' c' name :
  h !! c = Some k ->
  cls_mro k' = cls_mro k ->
  cls_dict k' !! name = cls_dict k !! name ->
  class_getattr (<[c := k']> h) c' name = class_getattr h c' name.
Proof.
  intros. unfold class_getattr. erewrite type_lookup_insert; eauto.
Qed.

(** An attribute set on the class itself is what the lookup finds. *)
Lemma type_lookup_own h c k name o :
  h !! c = Some k -> cls_dict k !! name = Some o ->
  type_lookup h c name = Ok o.
Proof.
  intros Hk Hd. unfold type_lookup, mro_lookup. rewrite Hk, Hd. reflexivity.
Qed.

Variable dedent : string -> string.

(** When [deprecate_class] returns: the class was found and could be
    modified, and the heap differs by the documentation of the class and
    by one entry of its namespace. *)
Lemma deprecate_class_success since pending pwt h c message wt h' w :
  deprecate_class dedent since pending pwt h c message wt = (h', Ok w) ->
  exists k new original wrapper,
    let doc := Some (deprecate_doc dedent since (cls_doc k) message) in
    let entry := if is_object_new new then "__init__" else "__new__" in
    h !! c = Some k
    /\ cls_native k = false
    /\ class_getattr h c "__new__" = Ok new
    /\ class_getattr h c entry = Ok original
    /\ deprecate_function dedent since pending pwt
         (<[c := with_doc k doc]> h) (get_function original) message wt
       = Ok wrapper
    /\ w = PClass c
    /\ h' = <[c := with_dict (with_doc k doc)
                     (<[entry := wrapper]> (cls_dict k))]> h.
Proof.
  unfold deprecate_class, class_set_doc.
  destruct (h !! c) as [k|] eqn:Hk; [|discriminate]. cbn [mbind option_bind].
  destruct (cls_native k) eqn:Hn; [discriminate|].
  set (doc := Some (deprecate_doc dedent since (cls_doc k) message)).
  assert (Hget : forall name,
    class_getattr (<[c := with_doc k doc]> h) c name = class_getattr h c name).
  { intros name. apply (class_getattr_insert h c k); auto. }
  rewrite (Hget "__new__"), (Hget "__init__").
  destruct (class_getattr h c "__new__") as [new|e] eqn:Hnew; [|discriminate].
  set (entry := if is_object_new new then "__init__" else "__new__").
  intros H.
  assert (H' : exists original,
    class_getattr h c entry = Ok original
    /\ match
         deprecate_function dedent since pending pwt (<[c := with_doc k doc]> h)
           (get_function original) message wt
       with
       | Raise e => (<[c := with_doc k doc]> h, Raise e)
       | Ok wrapper =>
           match class_setattr (<[c := with_doc k doc]> h) c entry wrapper with
           | (h1, Raise e) => (h1, Raise e)
           | (h1, Ok _) => (h1, Ok (PClass c))
           end
       end = (h', Ok w)).
  { subst entry. destruct (is_object_new new).
    - destruct (class_getattr h c "__init__") as [o|e]; [|discriminate].
      exists o. split; [reflexivity|exact H].
    - exists new. split; [exact Hnew|exact H]. }
  clear H. destruct H' as (original & Horig & H). revert H.
  destruct (deprecate_function _ _ _ _ _ _ _ _) as [wrapper|e] eqn:Hwrap;
    [|discriminate].
  unfold class_setattr. rewrite lookup_insert_eq. cbn [cls_native with_doc].
  rewrite Hn, insert_insert_eq. intros H.
  apply pair_equal_spec in H as [<- Hw]. injection Hw as <-.
  exists k, new, original, wrapper. cbn zeta. auto 10.
Qed.

End ClassFacts.

(** ** Decorated functions and classes *)

Section Decorated.

Variable U : Type.
Variable prim_call : heap -> prim -> call_args -> state U -> outcome * state U.
Variable dedent : string -> string.

Local Abbreviation call := (call U prim_call).
Local Abbreviation run_init := (run_init U prim_call).
Local Abbreviation construct := (construct U prim_call).
Local Abbreviation type_call := (type_call U prim_call).

(** C1: what a decorator returns warns once and then runs the original
    with the arguments it was given, handing back its outcome.  For a
    target that is not a class this holds of a direct call and of a call
    through a class (class and static methods).  For a class whose
    allocator is its own, instantiation is one warning followed by the
    original instantiation; for a class with the default allocator, once
    an instance is allocated the warning is emitted and the original
    initializer runs on that instance. *)
Theorem deprecated_warns_once_then_forwards d h obj h' w :
  decorate dedent d h obj = (h', Ok w) ->
  exists message,
    deprecation_message (d_since d) (d_removal_version d) (d_obj_type d) h
      obj (d_message d) (d_name d) (d_alternative d) (d_pending d)
    = Ok message
    /\ (forall st : state U,
          warnings (warnings_warn message (category_of d) 2 st)
          = (warnings st ++ [Warning message (category_of d) 2])%list)
    /\ (is_class obj = false ->
        (forall c a st,
           call h' (bind_class c w) a st
           = call h' (bind_class c obj) a
               (warnings_warn message (category_of d) 2 st))
        /\ (is_method_type obj = false ->
            forall a st,
              call h' w a st
              = call h' obj a (warnings_warn message (category_of d) 2 st)))
    /\ (forall c new,
          obj = PClass c ->
          class_getattr h c "__new__" = Ok new ->
          is_object_new new = false ->
          is_method_type (get_function new) = false ->
          forall a st,
            type_call h' c a st
            = construct h' c (get_function new) a
                (warnings_warn message (category_of d) 2 st))
    /\ (forall c new init,
          obj = PClass c ->
          class_getattr h c "__new__" = Ok new ->
          is_object_new new = true ->
          class_getattr h c "__init__" = Ok init ->
          is_method_type (get_function init) = false ->
          forall a st i st1,
            call h' new (with_self (PClass c) a) st
            = (Returned (PInstance c i), st1) ->
            type_call h' c a st
            = run_init h' (PMethod (get_function init) (PInstance c i))
                (PInstance c i) a
                (warnings_warn message (category_of d) 2 st1)).
Proof.
  intros Hdec. destruct (decorate_success dedent d h obj h' w Hdec)
    as (message & Hmsg & Hobj).
  exists message. split; [exact Hmsg|]. split; [reflexivity|].
  split; [|split].
  - intros Hcls.
    destruct (decorated_function_forwards U prim_call dedent d h obj h' w
                Hdec Hcls) as (message' & Hmsg' & Hbound & Hdirect).
    rewrite Hmsg in Hmsg'. injection Hmsg' as <-.
    split; [exact Hbound|exact Hdirect].
  - intros c new -> Hnew Hown Hplain a st.
    destruct (deprecate_class_success dedent _ _ _ _ _ _ _ _ _ Hobj)
      as (k & new' & original & wrapper & Hk & _ & Hnew' & Horig & Hwrap
          & _ & ->).
    rewrite Hnew in Hnew'. injection Hnew' as <-.
    rewrite Hown, Hnew in Horig. injection Horig as <-. rewrite Hown.
    destruct (deprecate_function_plain dedent _ _ _ _ _ _ _ _ Hwrap Hplain)
      as (n & doc & wr & ->).
    unfold type_call, class_getattr.
    erewrite type_lookup_own;
      [|apply lookup_insert_eq|cbn; apply lookup_insert_eq].
    reflexivity.
  - intros c new init -> Hnew Hdefault Hinit Hplain a st i st1 Hcall.
    destruct (deprecate_class_success dedent _ _ _ _ _ _ _ _ _ Hobj)
      as (k & new' & original & wrapper & Hk & _ & Hnew' & Horig & Hwrap
          & _ & ->).
    rewrite Hnew in Hnew'. injection Hnew' as <-.
    rewrite Hdefault, Hinit in Horig. injection Horig as <-.
    rewrite Hdefault in Hcall |- *.
    destruct (deprecate_function_plain dedent _ _ _ _ _ _ _ _ Hwrap Hplain)
      as (n & doc & wr & ->).
    unfold type_call.
    erewrite class_getattr_insert;
      [|exact Hk|reflexivity|cbn; apply lookup_insert_ne; discriminate].
    rewrite Hnew. unfold construct. rewrite Hcall.
    cbn [isinstance]. rewrite bool_decide_eq_true_2 by reflexivity.
    cbn [orb].
    erewrite type_lookup_own;
      [|apply lookup_insert_eq|cbn; apply lookup_insert_eq].
    reflexivity.
Qed.

End Decorated.

Lemma deprecated_warns_once_then_forwards_witness :
  (exists w message,
     decorate Sample.identity (Sample.since_1_0 false) Sample.classes
       Sample.greet = (Sample.classes, Ok w)
     /\ call nat Sample.prim_call Sample.classes w Sample.no_args Sample.start
        = call nat Sample.prim_call Sample.classes Sample.greet Sample.no_args
            (warnings_warn message SunpyDeprecationWarning 2 Sample.start))
  /\ (exists h' new message,
        decorate Sample.identity (Sample.since_1_0 false) Sample.classes
          (PClass 2%positive) = (h', Ok (PClass 2%positive))
        /\ class_getattr Sample.classes 2%positive "__new__" = Ok new
        /\ type_call nat Sample.prim_call h' 2%positive Sample.no_args
             Sample.start
           = construct nat Sample.prim_call h' 2%positive new Sample.no_args
               (warnings_warn message SunpyDeprecationWarning 2 Sample.start))
  /\ (exists h' init message,
        decorate Sample.identity (Sample.since_1_0 false) Sample.classes
          (PClass 1%positive) = (h', Ok (PClass 1%positive))
        /\ class_getattr Sample.classes 1%positive "__init__" = Ok init
        /\ type_call nat Sample.prim_call h' 1%positive Sample.no_args
             Sample.start
           = run_init nat Sample.prim_call h'
               (PMethod init (PInstance 1%positive 0))
               (PInstance 1%positive 0) Sample.no_args
               (warnings_warn message SunpyDeprecationWarning 2
                  {| warnings := []; user := 1%nat |})).
Proof.
  split; [|split].
  - pose (w := match snd (decorate Sample.identity (Sample.since_1_0 false)
                            Sample.classes Sample.greet) with
               | Ok w => w
               | Raise _ => PNone
               end).
    assert (E : decorate Sample.identity (Sample.since_1_0 false)
                  Sample.classes Sample.greet = (Sample.classes, Ok w))
      by (vm_compute; reflexivity).
    destruct (deprecated_warns_once_then_forwards nat Sample.prim_call
                Sample.identity _ _ _ _ _ E)
      as (message & _ & _ & Hfun & _).
    exists w, message. split; [exact E|].
    exact (proj2 (Hfun eq_refl) eq_refl Sample.no_args Sample.start).
  - pose (h' := fst (decorate Sample.identity (Sample.since_1_0 false)
                       Sample.classes (PClass 2%positive))).
    assert (E : decorate Sample.identity (Sample.since_1_0 false)
                  Sample.classes (PClass 2%positive)
                = (h', Ok (PClass 2%positive)))
      by (vm_compute; reflexivity).
    destruct (deprecated_warns_once_then_forwards nat Sample.prim_call
                Sample.identity _ _ _ _ _ E)
      as (message & _ & _ & _ & Hnew & _).
    exists h', (PFunction "__new__" None None (Source (UserCode 5))), message.
    split; [exact E|]. split; [reflexivity|].
    exact (Hnew 2%positive _ eq_refl eq_refl eq_refl eq_refl
             Sample.no_args Sample.start).
  - pose (h' := fst (decorate Sample.identity (Sample.since_1_0 false)
                       Sample.classes (PClass 1%positive))).
    assert (E : decorate Sample.identity (Sample.since_1_0 false)
                  Sample.classes (PClass 1%positive)
                = (h', Ok (PClass 1%positive)))
      by (vm_compute; reflexivity).
    destruct (deprecated_warns_once_then_forwards nat Sample.prim_call
                Sample.identity _ _ _ _ _ E)
      as (message & _ & _ & _ & _ & Hinit).
    exists h', (PFunction "__init__" None None (Source (UserCode 0))), message.
    split; [exact E|]. split; [reflexivity|].
    exact (Hinit 1%positive object_new _ eq_refl eq_refl eq_refl eq_refl
             eq_refl Sample.no_args Sample.start 0%nat _ eq_refl).
Defined.

(** ** The text of the warning *)

Section Messages.

Variable dedent : string -> string.

(** The template of [deprecate_doc] is filled by concatenation. *)
Lemma deprecate_doc_template since message :
  Py.format (Py.nl ++ ".. deprecated:: {since}" ++ Py.nl ++ "    {message}"
             ++ Py.nl ++ Py.nl)
    (Py.dict_get [("since", since); ("message", Py.strip message)])
  = Ok (Py.nl ++ ".. deprecated:: " ++ since
        ++ Py.nl ++ "    " ++ Py.strip message ++ Py.nl ++ Py.nl).
Proof. reflexivity. Qed.

(** The default text: no message given, or a function given as message. *)
Lemma default_message since removal_version obj_type h obj message name
  alternative pending :
  message_falsy message || message_is_function message = true ->
  deprecation_message since removal_version obj_type h obj message name
    alternative pending
  = (n ← (if String.eqb name "" then name_of h (get_function obj)
          else Ok name);
     Ok (("The " ++ n ++ " " ++ obj_type_name obj_type obj
          ++ (if pending
              then " will be deprecated in version " ++ since ++ "."
              else " is deprecated and may be removed in "
                   ++ match removal_version with
                      | None => "a future version"
                      | Some v => "version " ++ v
                      end ++ "."))
         ++ (if String.eqb alternative "" then ""
             else Py.nl ++ "        Use " ++ alternative ++ " instead."))).
Proof.
  intros Hdefault. unfold deprecation_message. rewrite Hdefault.
  destruct (if String.eqb name "" then _ else _) as [n|e]; [|reflexivity].
  destruct pending, (String.eqb alternative ""); reflexivity.
Qed.

(** C3, counterexample: decorating with [pending=True] and
    [since="1.0"], whose removal version is ["1.1"], the text names
    version 1.0; the removal version does not occur in it, so the clause
    the claim describes does not either. *)
Lemma pending_message_names_since :
  exists d text,
    deprecated Sample.identity "1.0" (MsgStr "") "" "" true None
      Sample.classes = (Sample.classes, Ok (ReturnsDecorator d))
    /\ d_removal_version d = Some "1.1"
    /\ deprecation_message (d_since d) (d_removal_version d) (d_obj_type d)
         Sample.classes Sample.greet (d_message d) (d_name d)
         (d_alternative d) (d_pending d) = Ok text
    /\ text = "The greet function will be deprecated in version 1.0."
    /\ Py.contains "1.1" text = false
    /\ Py.contains (stated_clause true "1.1") text = false
    /\ Py.contains (stated_clause true "version 1.1") text = false.
Proof. do 2 eexists. repeat split. Qed.

(** C3, amended: with no custom message the text is
    [The {name} {object type}] followed, when [pending] is set, by
    [will be deprecated in version {since}.] (the version passed as
    [since], not the removal version) and otherwise by
    [is deprecated and may be removed in version {removal version}.];
    a line [Use {alternative} instead.] follows when [alternative] is
    not empty. *)
Theorem default_warning_message since major minor message name alternative
  pending obj_type h0 h obj n :
  get_removal_version since = Ok (major, minor) ->
  message_falsy message = true ->
  (if String.eqb name "" then name_of h (get_function obj) else Ok name)
  = Ok n ->
  exists d,
    deprecated dedent since message name alternative pending obj_type h0
    = (h0, Ok (ReturnsDecorator d))
    /\ deprecation_message (d_since d) (d_removal_version d) (d_obj_type d)
         h obj (d_message d) (d_name d) (d_alternative d) (d_pending d)
       = Ok (("The " ++ n ++ " " ++ obj_type_name obj_type obj
              ++ (if pending
                  then " will be deprecated in version " ++ since ++ "."
                  else " is deprecated and may be removed in version "
                       ++ (Py.str_of_int major ++ "." ++ Py.str_of_int minor)
                       ++ "."))
             ++ (if String.eqb alternative "" then ""
                 else Py.nl ++ "        Use " ++ alternative ++ " instead.")).
Proof.
  intros Hv Hfalsy Hname.
  assert (Hf : message_is_function message = false).
  { destruct message as [s|[]]; (reflexivity || discriminate). }
  eexists. split; [apply deprecated_returns_decorator; eassumption|].
  cbn [d_since d_removal_version d_obj_type d_message d_name d_alternative
       d_pending].
  rewrite default_message by (rewrite Hfalsy; reflexivity).
  rewrite Hname. destruct pending; reflexivity.
Qed.

End Messages.

Lemma default_warning_message_witness :
  exists d,
    deprecated Sample.identity "1.3" (MsgStr "") "" "sunpy.new" false None
      Sample.classes = (Sample.classes, Ok (ReturnsDecorator d))
    /\ deprecation_message (d_since d) (d_removal_version d) (d_obj_type d)
         Sample.classes Sample.greet (d_message d) (d_name d)
         (d_alternative d) (d_pending d)
       = Ok ("The greet function is deprecated and may be removed in "
             ++ "version 2.1." ++ Py.nl
             ++ "        Use sunpy.new instead.").
Proof.
  exact (default_warning_message Sample.identity "1.3" 2 1 (MsgStr "") "" "sunpy.new"
           false None Sample.classes Sample.classes Sample.greet "greet"
           eq_refl eq_refl eq_refl).
Defined.

(** ** The factory *)

Section Factory.

Variable U : Type.
Variable prim_call : heap -> prim -> call_args -> state U -> outcome * state U.
Variable dedent : string -> string.

Local Abbreviation call := (call U prim_call).

(** The fields of the decorator [deprecated] returns. *)
Lemma deprecated_decorator_fields since message name alternative pending
  obj_type h h' d :
  deprecated dedent since message name alternative pending obj_type h
  = (h', Ok (ReturnsDecorator d)) ->
  h' = h
  /\ d_since d = since /\ d_message d = message /\ d_name d = name
  /\ d_alternative d = alternative /\ d_pending d = pending
  /\ d_obj_type d = obj_type
  /\ d_warning_type d = SunpyDeprecationWarning
  /\ d_pending_warning_type d = SunpyPendingDeprecationWarning.
Proof.
  unfold deprecated. destruct (get_removal_version since) as [[major minor]|e];
    [|discriminate].
  unfold _deprecated.
  destruct message as [s|o].
  { intros H. injection H as <- <-. repeat split. }
  destruct o;
    try (intros H; injection H as <- <-; repeat split).
  destruct (decorate _ _ _ _) as [h1 [w|e]]; discriminate.
Qed.

(** C4: a wrapper made through [deprecated] warns with the
    pending-deprecation category when the decoration was made with
    [pending=True] and with the deprecation category otherwise; this holds
    of every call of a decorated function, and of every call through the
    class of a decorated class or static method. *)
Theorem wrapper_category_follows_pending since message name alternative
  pending obj_type h0 h0' d h obj h' w :
  deprecated dedent since message name alternative pending obj_type h0
  = (h0', Ok (ReturnsDecorator d)) ->
  decorate dedent d h obj = (h', Ok w) ->
  is_class obj = false ->
  exists text,
    let category :=
      if pending then SunpyPendingDeprecationWarning
      else SunpyDeprecationWarning in
    (forall c a st,
       call h' (bind_class c w) a st
       = call h' (bind_class c obj) a (warnings_warn text category 2 st))
    /\ (isfunction obj = true ->
        forall a st,
          call h' w a st = call h' obj a (warnings_warn text category 2 st)
          /\ warnings (warnings_warn text category 2 st)
             = (warnings st ++ [Warning text category 2])%list).
Proof.
  intros Hd Hw Hcls.
  destruct (deprecated_decorator_fields _ _ _ _ _ _ _ _ _ Hd)
    as (_ & _ & _ & _ & _ & Hp & _ & Hwt & Hpwt).
  destruct (decorated_function_forwards U prim_call dedent _ _ _ _ _ Hw Hcls)
    as (text & _ & Hbound & Hdirect).
  unfold category_of in Hbound, Hdirect. rewrite Hp, Hwt, Hpwt in *.
  exists text. split; [exact Hbound|].
  intros Hf a st. split; [|reflexivity].
  apply Hdirect. destruct obj; (reflexivity || discriminate).
Qed.

(** C10: when the message is a function, [_deprecated] returns no
    decorator: the function is the target, it comes back wrapped, and the
    text of its warning is the default one, as if no message had been
    given.  [deprecated] does so whenever the version is well formed. *)
Theorem function_message_is_the_target since fname fdoc fwrapped fcode name
  alternative pending removal_version obj_type wt pwt h :
  let f := PFunction fname fdoc fwrapped fcode in
  exists text w,
    _deprecated dedent since (MsgObj f) name alternative pending
      removal_version obj_type wt pwt h = (h, Ok (ReturnsWrapped w))
    /\ deprecation_message since removal_version obj_type h f (MsgStr "")
         name alternative pending = Ok text
    /\ deprecation_message since removal_version obj_type h f (MsgObj f)
         name alternative pending = Ok text
    /\ deprecate_function dedent since pending pwt h f text wt = Ok w
    /\ (forall a st,
          call h w a st
          = call h f a
              (warnings_warn text (if pending then pwt else wt) 2 st))
    /\ (forall major minor,
          get_removal_version since = Ok (major, minor) ->
          exists w',
            deprecated dedent since (MsgObj f) name alternative pending
              obj_type h = (h, Ok (ReturnsWrapped w'))).
Proof.
  intros f.
  assert (Hname : exists n,
    (if String.eqb name "" then name_of h (get_function f) else Ok name)
    = Ok n).
  { destruct (String.eqb name ""); eexists; reflexivity. }
  destruct Hname as [n Hname].
  assert (Htext : forall rv m,
    message_falsy m || message_is_function m = true ->
    exists text,
      deprecation_message since rv obj_type h f m name alternative pending
      = Ok text).
  { intros rv m Hm. rewrite (default_message _ _ _ _ _ _ _ _ _ Hm), Hname.
    eexists. reflexivity. }
  assert (Hsame : forall rv,
    deprecation_message since rv obj_type h f (MsgObj f) name alternative
      pending
    = deprecation_message since rv obj_type h f (MsgStr "") name
        alternative pending).
  { intros rv. rewrite !default_message by reflexivity. reflexivity. }
  assert (Hwrap : forall text pwt' wt',
    exists w,
      deprecate_function dedent since pending pwt' h f text wt' = Ok w).
  { intros text pwt' wt'.
    destruct (deprecate_function_shape dedent since pending pwt' h f text wt')
      as (n' & doc & wr & ->). eexists. reflexivity. }
  destruct (Htext removal_version (MsgStr "") eq_refl) as [text Ht].
  destruct (Hwrap text pwt wt) as [w Hw].
  exists text, w. split; [|split; [|split; [|split; [|split]]]].
  - unfold _deprecated, decorate, deprecate. cbn [f d_since d_pending
      d_removal_version d_obj_type d_pending_warning_type d_message d_name
      d_alternative d_warning_type].
    fold f. rewrite Hsame, Ht. unfold f at 1. fold f. rewrite Hw.
    reflexivity.
  - exact Ht.
  - rewrite Hsame. exact Ht.
  - exact Hw.
  - intros a st.
    destruct (deprecate_function_plain dedent _ _ _ _ _ _ _ _ Hw eq_refl)
      as (n' & doc & wr & ->).
    reflexivity.
  - intros major minor Hv. unfold deprecated. rewrite Hv.
    set (rv := Some _).
    destruct (Htext rv (MsgStr "") eq_refl) as [text' Ht'].
    destruct (Hwrap text' SunpyPendingDeprecationWarning
                SunpyDeprecationWarning) as [w' Hw'].
    exists w'. unfold _deprecated, decorate, deprecate. cbn [f d_since
      d_pending d_removal_version d_obj_type d_pending_warning_type
      d_message d_name d_alternative d_warning_type].
    fold f. rewrite Hsame, Ht'. unfold f at 1. fold f. rewrite Hw'.
    reflexivity.
Qed.

End Factory.

Lemma wrapper_category_follows_pending_witness :
  exists text w,
    decorate Sample.identity (Sample.since_1_0 true) Sample.classes
      Sample.greet = (Sample.classes, Ok w)
    /\ call nat Sample.prim_call Sample.classes w Sample.no_args Sample.start
       = call nat Sample.prim_call Sample.classes Sample.greet Sample.no_args
           (warnings_warn text SunpyPendingDeprecationWarning 2 Sample.start).
Proof.
  pose (w := match snd (decorate Sample.identity (Sample.since_1_0 true)
                          Sample.classes Sample.greet) with
             | Ok w => w
             | Raise _ => PNone
             end).
  assert (E : decorate Sample.identity (Sample.since_1_0 true) Sample.classes
                Sample.greet = (Sample.classes, Ok w))
    by (vm_compute; reflexivity).
  destruct (wrapper_category_follows_pending nat Sample.prim_call
              Sample.identity "1.0" (MsgStr "") "" "" true None Sample.classes
              Sample.classes (Sample.since_1_0 true) Sample.classes
              Sample.greet Sample.classes w eq_refl E eq_refl)
    as (text & _ & Hdirect).
  exists text, w. split; [exact E|].
  exact (proj1 (Hdirect eq_refl Sample.no_args Sample.start)).
Defined.

Lemma function_message_is_the_target_witness :
  exists w,
    deprecated Sample.identity "1.0" (MsgObj Sample.greet) "" "" false None
      Sample.classes = (Sample.classes, Ok (ReturnsWrapped w)).
Proof.
  destruct (function_message_is_the_target nat Sample.prim_call
              Sample.identity "1.0" "greet" (Some "Say hello.") None
              (Source (UserCode 7)) "" "" false None None
              SunpyDeprecationWarning SunpyPendingDeprecationWarning
              Sample.classes)
    as (text & w & _ & _ & _ & _ & _ & Hdep).
  exact (Hdep 1 1 eq_refl).
Defined.

(** ** Targets that cannot be called, and classes rewritten in place *)

Section Targets.

Variable U : Type.
Variable prim_call : heap -> prim -> call_args -> state U -> outcome * state U.
Variable dedent : string -> string.

Local Abbreviation call := (call U prim_call).

(** C7, amended: for a target that is neither callable, nor a class, nor a
    class or static method object, the decorator fails when it is applied
    exactly when the text of the warning cannot be built: with
    [AttributeError] when no name is given and the target has no
    [__name__], and, for a custom message, with the error its formatting
    raises.  In every other case, in particular with no custom message and
    a name given or found on the target, it returns a function wrapper,
    never the target itself, and the failure comes when the wrapper is
    called: the warning is emitted, then [TypeError] is raised. *)
Theorem non_callable_target d h obj :
  is_callable obj = false -> is_class obj = false ->
  is_method_type obj = false ->
  let resolved_name :=
    if String.eqb (d_name d) "" then name_of h obj else Ok (d_name d) in
  let wraps (text : string) :=
    exists w,
      decorate dedent d h obj = (h, Ok w)
      /\ isfunction w = true /\ w <> obj
      /\ forall a st,
           call h w a st
           = (Raised TypeError, warnings_warn text (category_of d) 2 st) in
  (forall e,
     d_name d = "" -> name_of h obj = Raise e ->
     e = AttributeError /\ decorate dedent d h obj = (h, Raise e))
  /\ (forall e,
        deprecation_message (d_since d) (d_removal_version d) (d_obj_type d)
          h obj (d_message d) (d_name d) (d_alternative d) (d_pending d)
        = Raise e ->
        decorate dedent d h obj = (h, Raise e))
  /\ (forall text,
        deprecation_message (d_since d) (d_removal_version d) (d_obj_type d)
          h obj (d_message d) (d_name d) (d_alternative d) (d_pending d)
        = Ok text ->
        wraps text)
  /\ (forall e,
        resolved_name = Raise e ->
        e = AttributeError /\ decorate dedent d h obj = (h, Raise e))
  /\ (forall n,
        resolved_name = Ok n ->
        message_falsy (d_message d) || message_is_function (d_message d)
        = true ->
        wraps (("The " ++ n ++ " " ++ obj_type_name (d_obj_type d) obj
                ++ (if d_pending d
                    then " will be deprecated in version " ++ d_since d ++ "."
                    else " is deprecated and may be removed in "
                         ++ match d_removal_version d with
                            | None => "a future version"
                            | Some v => "version " ++ v
                            end ++ "."))
               ++ (if String.eqb (d_alternative d) "" then ""
                   else Py.nl ++ "        Use " ++ d_alternative d
                        ++ " instead.")))
  /\ (forall n,
        resolved_name = Ok n ->
        message_falsy (d_message d) || message_is_function (d_message d)
        = false ->
        match
          message_format (d_message d)
            [("func", n); ("name", n); ("deprecated_version", d_since d);
             ("future_version",
              match d_removal_version d with
              | None => "a future version"
              | Some v => "version " ++ v
              end);
             ("alternative", d_alternative d);
             ("obj_type", obj_type_name (d_obj_type d) obj)]
        with
        | Raise e => decorate dedent d h obj = (h, Raise e)
        | Ok text => wraps text
        end).
Proof.
  intros Hcall Hcls Hm resolved_name wraps.
  assert (Hself : get_function obj = obj)
    by (destruct obj; (reflexivity || discriminate)).
  assert (Hwraps : forall text,
    deprecation_message (d_since d) (d_removal_version d) (d_obj_type d)
      h obj (d_message d) (d_name d) (d_alternative d) (d_pending d)
    = Ok text -> wraps text).
  { intros text Ht.
    destruct (deprecate_function_shape dedent (d_since d) (d_pending d)
                (d_pending_warning_type d) h obj text (d_warning_type d))
      as (n & doc & wr & Hw).
    exists (PFunction n doc wr
              (DeprecatedFunc text (d_pending d) (d_pending_warning_type d)
                 (d_warning_type d) obj)).
    split; [|split; [reflexivity|split]].
    + unfold decorate, deprecate. rewrite Ht, Hw.
      destruct obj; (reflexivity || discriminate).
    + destruct obj; discriminate.
    + intros a st. destruct obj; (reflexivity || discriminate). }
  assert (Hfails : forall e,
    deprecation_message (d_since d) (d_removal_version d) (d_obj_type d)
      h obj (d_message d) (d_name d) (d_alternative d) (d_pending d)
    = Raise e -> decorate dedent d h obj = (h, Raise e)).
  { intros e He. unfold decorate, deprecate. rewrite He. reflexivity. }
  assert (Hattr : forall e, name_of h obj = Raise e -> e = AttributeError).
  { intros e He.
    destruct obj as [| ? [n|] ?| | | | | | | |]; try discriminate;
      cbn in He; congruence. }
  assert (Hnoname : forall e,
    resolved_name = Raise e ->
    e = AttributeError /\ decorate dedent d h obj = (h, Raise e)).
  { intros e He. subst resolved_name.
    destruct (String.eqb (d_name d) "") eqn:Hn; [|discriminate].
    split; [exact (Hattr e He)|]. apply Hfails.
    unfold deprecation_message. rewrite Hn, Hself, He. reflexivity. }
  split; [|split; [|split; [|split; [|split]]]].
  - intros e Hname He. apply Hnoname. subst resolved_name.
    rewrite Hname. exact He.
  - exact Hfails.
  - exact Hwraps.
  - exact Hnoname.
  - intros n Hn Hdefault. apply Hwraps.
    rewrite (default_message _ _ _ _ _ _ _ _ _ Hdefault), Hself.
    subst resolved_name. cbv beta in Hn. rewrite Hn. reflexivity.
  - intros n Hn Hcustom.
    assert (Hmsg :
      deprecation_message (d_since d) (d_removal_version d) (d_obj_type d)
        h obj (d_message d) (d_name d) (d_alternative d) (d_pending d)
      = (text ← message_format (d_message d)
           [("func", n); ("name", n); ("deprecated_version", d_since d);
            ("future_version",
             match d_removal_version d with
             | None => "a future version"
             | Some v => "version " ++ v
             end);
            ("alternative", d_alternative d);
            ("obj_type", obj_type_name (d_obj_type d) obj)];
         Ok (text ++ ""))).
    { unfold deprecation_message. rewrite Hself.
      subst resolved_name. cbv beta in Hn. rewrite Hn, Hcustom. reflexivity. }
    destruct (message_format _ _) as [text|e].
    + apply Hwraps. rewrite Hmsg. cbn. f_equal.
      clear. induction text as [|c text IH]; [reflexivity|].
      rewrite append_cons, IH. reflexivity.
    + apply Hfails. exact Hmsg.
Qed.

(** C5: decorating a class returns the very reference it was given, and
    the heap afterwards differs at that class only: its documentation is
    the deprecation note followed by the old documentation, and one entry
    of its namespace is replaced by a wrapper that warns and forwards to
    what was there, [__init__] when the allocator the class resolves to
    is [object.__new__] and [__new__] otherwise.  Name, bases and every
    other entry are as before, so every other attribute of every class
    resolves as before. *)
Theorem class_rewritten_in_place d h c h' w :
  decorate dedent d h (PClass c) = (h', Ok w) ->
  w = PClass c
  /\ exists k k' new original wrapper message,
       let entry := if is_object_new new then "__init__" else "__new__" in
       h !! c = Some k /\ h' = <[c := k']> h
       /\ (forall c', c' <> c -> h' !! c' = h !! c')
       /\ class_getattr h c "__new__" = Ok new
       /\ class_getattr h c entry = Ok original
       /\ cls_doc k'
          = Some (deprecate_doc dedent (d_since d) (cls_doc k) message)
       /\ cls_dict k' = <[entry := wrapper]> (cls_dict k)
       /\ (forall name, name <> entry ->
                        cls_dict k' !! name = cls_dict k !! name)
       /\ cls_name k' = cls_name k /\ cls_mro k' = cls_mro k
       /\ cls_native k' = cls_native k
       /\ (forall c' name, name <> entry ->
                           class_getattr h' c' name = class_getattr h c' name)
       /\ class_getattr h' c entry = Ok (bind_class c wrapper)
       /\ (forall hh cc a st,
             call hh (bind_class cc wrapper) a st
             = call hh (bind_class cc (get_function original)) a
                 (warnings_warn message (category_of d) 2 st)).
Proof.
  intros Hdec.
  destruct (decorate_success dedent d h (PClass c) h' w Hdec)
    as (message & _ & Hcls).
  destruct (deprecate_class_success dedent _ _ _ _ _ _ _ _ _ Hcls)
    as (k & new & original & wrapper & Hk & Hn & Hnew & Horig & Hwrap
        & -> & ->).
  split; [reflexivity|].
  eexists k, _, new, original, wrapper, message. cbn zeta.
  split; [exact Hk|]. split; [reflexivity|].
  split; [intros c' Hne; apply lookup_insert_ne; congruence|].
  split; [exact Hnew|]. split; [exact Horig|].
  split; [reflexivity|]. split; [reflexivity|].
  split; [intros name Hne; cbn; apply lookup_insert_ne; congruence|].
  split; [reflexivity|]. split; [reflexivity|]. split; [reflexivity|].
  split; [|split].
  - intros c' name Hne. apply (class_getattr_insert h c k); auto.
    cbn. apply lookup_insert_ne. congruence.
  - unfold class_getattr. erewrite type_lookup_own;
      [reflexivity|apply lookup_insert_eq|cbn; apply lookup_insert_eq].
  - intros hh cc a st.
    apply (deprecate_function_forwards U prim_call dedent
             _ _ _ _ _ _ _ _ Hwrap).
Qed.

End Targets.

(** C7, counterexample: an integer-like datum, neither callable nor a
    class, decorated under an explicit name: the decorator returns a
    function, and nothing fails until that function is called. *)
Lemma non_callable_target_is_wrapped :
  let target := PData 5 None (Some "int") in
  exists d w,
    deprecated Sample.identity "1.0" (MsgStr "") "x" "" false None
      Sample.classes = (Sample.classes, Ok (ReturnsDecorator d))
    /\ is_callable target = false /\ is_class target = false
    /\ decorate Sample.identity d Sample.classes target
       = (Sample.classes, Ok w)
    /\ isfunction w = true
    /\ call nat Sample.prim_call Sample.classes w Sample.no_args Sample.start
       = (Raised TypeError,
          {| warnings :=
               [Warning ("The x object is deprecated and may be removed in "
                         ++ "version 1.1.") SunpyDeprecationWarning 2];
             user := 0%nat |}).
Proof. do 2 eexists. repeat split. Qed.

Lemma non_callable_target_witness :
  (decorate Sample.identity (Sample.since_1_0 false) Sample.classes
     (PData 5 None (Some "int")) = (Sample.classes, Raise AttributeError))
  /\ (exists w,
        decorate Sample.identity (Sample.since_1_0 false) Sample.classes
          (PData 9 (Some "os") None) = (Sample.classes, Ok w)
        /\ call nat Sample.prim_call Sample.classes w Sample.no_args
             Sample.start
           = (Raised TypeError,
              warnings_warn
                "The os object is deprecated and may be removed in version 1.1."
                SunpyDeprecationWarning 2 Sample.start))
  /\ (exists w,
        decorate Sample.identity
          (Decorator "1.0" (MsgStr "") "x" "" true (Some "1.1") None
             SunpyDeprecationWarning SunpyPendingDeprecationWarning)
          Sample.classes (PData 5 None (Some "int")) = (Sample.classes, Ok w)
        /\ call nat Sample.prim_call Sample.classes w Sample.no_args
             Sample.start
           = (Raised TypeError,
              warnings_warn "The x object will be deprecated in version 1.0."
                SunpyPendingDeprecationWarning 2 Sample.start))
  /\ decorate Sample.identity
       (Decorator "1.0" (MsgStr "{bogus}") "x" "" false (Some "1.1") None
          SunpyDeprecationWarning SunpyPendingDeprecationWarning)
       Sample.classes (PData 5 None (Some "int"))
     = (Sample.classes, Raise (KeyError "bogus")).
Proof.
  split; [|split; [|split]].
  - exact (proj2 (proj1 (non_callable_target nat Sample.prim_call
                           Sample.identity (Sample.since_1_0 false)
                           Sample.classes (PData 5 None (Some "int"))
                           eq_refl eq_refl eq_refl)
                    AttributeError eq_refl eq_refl)).
  - destruct (proj1 (proj2 (proj2 (non_callable_target nat Sample.prim_call
                                     Sample.identity (Sample.since_1_0 false)
                                     Sample.classes (PData 9 (Some "os") None)
                                     eq_refl eq_refl eq_refl)))
                "The os object is deprecated and may be removed in version 1.1."
                eq_refl) as (w & Hw & _ & _ & Hcall).
    exists w. split; [exact Hw|]. exact (Hcall Sample.no_args Sample.start).
  - destruct (proj1 (proj2 (proj2 (proj2 (proj2
                (non_callable_target nat Sample.prim_call Sample.identity
                   (Decorator "1.0" (MsgStr "") "x" "" true (Some "1.1") None
                      SunpyDeprecationWarning SunpyPendingDeprecationWarning)
                   Sample.classes (PData 5 None (Some "int"))
                   eq_refl eq_refl eq_refl)))))
                "x" eq_refl eq_refl) as (w & Hw & _ & _ & Hcall).
    exists w. split; [exact Hw|]. exact (Hcall Sample.no_args Sample.start).
  - exact (proj2 (proj2 (proj2 (proj2 (proj2
             (non_callable_target nat Sample.prim_call Sample.identity
                (Decorator "1.0" (MsgStr "{bogus}") "x" "" false (Some "1.1")
                   None SunpyDeprecationWarning
                   SunpyPendingDeprecationWarning)
                Sample.classes (PData 5 None (Some "int"))
                eq_refl eq_refl eq_refl)))))
             "x" eq_refl eq_refl).
Defined.

Lemma class_rewritten_in_place_witness :
  exists h' k',
    decorate Sample.identity (Sample.since_1_0 false) Sample.classes
      (PClass 1%positive) = (h', Ok (PClass 1%positive))
    /\ h' = <[1%positive := k']> Sample.classes
    /\ cls_dict k' !! "aperture" = Some (PData 3 None None)
    /\ h' !! 2%positive = Some Sample.Singleton.
Proof.
  pose (h' := fst (decorate Sample.identity (Sample.since_1_0 false)
                     Sample.classes (PClass 1%positive))).
  assert (E : decorate Sample.identity (Sample.since_1_0 false)
                Sample.classes (PClass 1%positive)
              = (h', Ok (PClass 1%positive)))
    by (vm_compute; reflexivity).
  destruct (class_rewritten_in_place nat Sample.prim_call Sample.identity
              _ _ _ _ _ E)
    as (_ & k & k' & new & original & wrapper & message & Hk & Hh' & Hother
        & Hnew & _ & _ & _ & Hframe & _).
  exists h', k'. split; [exact E|]. split; [exact Hh'|].
  assert (Hk1 : Some k = Some Sample.Telescope)
    by (rewrite <- Hk; reflexivity).
  injection Hk1 as ->.
  assert (Hn : Ok new = Ok object_new) by (rewrite <- Hnew; reflexivity).
  injection Hn as ->. split.
  - rewrite (Hframe "aperture") by discriminate. reflexivity.
  - transitivity (Sample.classes !! 2%positive); [|reflexivity].
    apply Hother. discriminate.
Defined.

(** ** The docstring composer *)

Section Docstrings.

Import add_common_docstring.

Lemma append_empty_r (s : string) : s ++ "" = s.
Proof. induction s as [|c s IH]; [reflexivity|]. rewrite append_cons, IH. reflexivity. Qed.

Lemma eqb_empty (s : string) : String.eqb s "" = true -> s = "".
Proof. apply String.eqb_eq. Qed.

(** The documentation before substitution: prepend, original, append. *)
Lemma composed_doc (A P : option string) (kw : gmap string string)
  name doc wrapped code :
  exists r,
    __call__ (__init__ A P kw) (PFunction name doc wrapped code)
    = ({| append := Some (or_empty A); prepend := Some (or_empty P);
          kwargs := kw |},
       PFunction name
         (Some match r with
               | Ok s => s
               | Raise _ => or_empty P ++ or_empty doc ++ or_empty A
               end) wrapped code,
       (fun s => PFunction name (Some s) wrapped code) <$> r)
    /\ r = (if bool_decide (kw = ∅)
            then Ok (or_empty P ++ or_empty doc ++ or_empty A)
            else Py.format (or_empty P ++ or_empty doc ++ or_empty A)
                   (fun k => kw !! k)).
Proof.
  unfold __call__, __init__. cbn [append prepend kwargs or_empty].
  assert (Ha : (if negb (String.eqb (or_empty A) "")
                then or_empty doc ++ or_empty A else or_empty doc)
               = or_empty doc ++ or_empty A).
  { destruct (String.eqb (or_empty A) "") eqn:E; [|reflexivity].
    apply eqb_empty in E. rewrite E, append_empty_r. reflexivity. }
  assert (Hp : forall t,
    (if negb (String.eqb (or_empty P) "") then or_empty P ++ t else t)
    = or_empty P ++ t).
  { intros t. destruct (String.eqb (or_empty P) "") eqn:E; [|reflexivity].
    apply eqb_empty in E. rewrite E. reflexivity. }
  rewrite Ha, Hp. eexists. split; [|reflexivity].
  destruct (bool_decide (kw = ∅)); [reflexivity|].
  destruct (Py.format _ _); reflexivity.
Qed.

(** C8: applied to a function, the composer returns that function with
    its documentation replaced by the prepend fragment, the old
    documentation and the append fragment, missing parts counting as
    empty, and with the placeholders substituted when substitutions were
    given; the function object is left as it is returned.  With no
    documentation, [prepend="A"] and [append="B"] give ["AB"]. *)
Theorem add_common_docstring_composes (A P : option string)
  (kw : gmap string string) name doc wrapped code :
  let func := PFunction name doc wrapped code in
  let text := or_empty P ++ or_empty doc ++ or_empty A in
  (kw = ∅ ->
   exists self',
     __call__ (__init__ A P kw) func
     = (self', PFunction name (Some text) wrapped code,
        Ok (PFunction name (Some text) wrapped code)))
  /\ (forall s,
        kw <> ∅ -> Py.format text (fun k => kw !! k) = Ok s ->
        exists self',
          __call__ (__init__ A P kw) func
          = (self', PFunction name (Some s) wrapped code,
             Ok (PFunction name (Some s) wrapped code)))
  /\ (exists self',
        __call__ (__init__ (Some "B") (Some "A") kw)
          (PFunction name None wrapped code)
        = (self', PFunction name (Some "AB") wrapped code,
           Ok (PFunction name (Some "AB") wrapped code))).
Proof.
  intros func text. subst func. split; [|split].
  - intros Hkw.
    destruct (composed_doc A P kw name doc wrapped code) as (r & -> & ->).
    rewrite bool_decide_eq_true_2 by exact Hkw. eexists. reflexivity.
  - intros s Hkw Hs.
    destruct (composed_doc A P kw name doc wrapped code) as (r & -> & ->).
    rewrite bool_decide_eq_false_2 by exact Hkw. fold text. rewrite Hs.
    eexists. reflexivity.
  - destruct (composed_doc (Some "B") (Some "A") kw name None wrapped code)
      as (r & -> & ->).
    destruct (bool_decide (kw = ∅)); eexists; reflexivity.
Qed.

End Docstrings.

Lemma add_common_docstring_composes_witness :
  exists self',
    add_common_docstring.__call__ Sample.composer Sample.greet
    = (self',
       PFunction "greet" (Some "Note. Say hello. See the guide.") None
         (Source (UserCode 7)),
       Ok (PFunction "greet" (Some "Note. Say hello. See the guide.") None
             (Source (UserCode 7)))).
Proof.
  refine (proj1 (proj2 (add_common_docstring_composes (Some " See {ref}.")
                          (Some "Note. ") {[ "ref" := "the guide" ]} "greet"
                          (Some "Say hello.") None (Source (UserCode 7))))
            "Note. Say hello. See the guide." _ _).
  - vm_compute. discriminate.
  - vm_compute. reflexivity.
Defined.

(** ** The constants registry *)

Section Registry.

Variable magnitude : Type.
Implicit Types (reg : constants.registry magnitude) (x n : string).

Lemma find_all_cons r reg :
  constants.find (r :: reg) None
  = constants.name r :: constants.find reg None.
Proof. reflexivity. Qed.

Lemma find_some_cons x r reg :
  constants.find (r :: reg) (Some x)
  = if constants.matches x r
    then constants.name r :: constants.find reg (Some x)
    else constants.find reg (Some x).
Proof.
  cbn [constants.find List.filter]. destruct (constants.matches x r); reflexivity.
Qed.

Lemma find_sublist reg x :
  sublist (constants.find reg (Some x)) (constants.find reg None).
Proof.
  induction reg as [|r reg IH]; [constructor|].
  rewrite find_some_cons, find_all_cons.
  destruct (constants.matches x r); [apply sublist_skip|apply sublist_cons];
    exact IH.
Qed.

Lemma get_registered reg n :
  n ∈ constants.find reg None ->
  exists r, constants.get reg n = Ok r /\ constants.name r = n.
Proof.
  induction reg as [|r reg IH]; [intros H; inversion H|].
  rewrite find_all_cons. intros H. unfold constants.get. cbn [List.find].
  destruct (String.eqb (constants.name r) n) eqn:E.
  - exists r. split; [reflexivity|]. apply String.eqb_eq, E.
  - apply elem_of_cons in H as [->|H].
    + rewrite String.eqb_refl in E. discriminate.
    + exact (IH H).
Qed.

(** C9: what [find] returns for a substring is part of what it returns
    with no argument, in the same order; [get] succeeds on every name
    [find] lists; and [find] returns nothing for a substring that no
    registered name or alias contains. *)
Theorem registry_find_get reg x :
  constants.find reg (Some x) ⊆ constants.find reg None
  /\ sublist (constants.find reg (Some x)) (constants.find reg None)
  /\ (forall n,
        n ∈ constants.find reg None ->
        exists r, constants.get reg n = Ok r /\ constants.name r = n)
  /\ ((forall r, r ∈ reg -> constants.matches x r = false) ->
      constants.find reg (Some x) = []).
Proof.
  split; [|split; [|split]].
  - apply sublist_subseteq, find_sublist.
  - apply find_sublist.
  - intros n. apply get_registered.
  - induction reg as [|r reg IH]; [reflexivity|].
    intros H. rewrite find_some_cons, (H r) by apply list_elem_of_here.
    apply IH. intros r' Hr'. apply H, list_elem_of_further, Hr'.
Qed.

End Registry.

Lemma registry_find_get_witness :
  constants.find Sample.table (Some "boo") = []
  /\ constants.find Sample.table (Some "crab") = []
  /\ constants.find Sample.table (Some "foo") = []
  /\ constants.find Sample.table (Some "SUN") = ["radius"].
Proof.
  assert (H : forall x,
    forallb (fun r => negb (constants.matches x r)) Sample.table = true ->
    forall r, r ∈ Sample.table -> constants.matches x r = false).
  { intros x Hx r Hr. apply list_elem_of_In in Hr.
    rewrite forallb_forall in Hx. apply negb_true_iff, Hx, Hr. }
  split; [|split; [|split]].
  - exact (proj2 (proj2 (proj2 (registry_find_get Z Sample.table "boo")))
             (H "boo" eq_refl)).
  - exact (proj2 (proj2 (proj2 (registry_find_get Z Sample.table "crab")))
             (H "crab" eq_refl)).
  - exact (proj2 (proj2 (proj2 (registry_find_get Z Sample.table "foo")))
             (H "foo" eq_refl)).
  - reflexivity.
Defined.

(** * Further properties of the code *)

(** ** More on the removal version *)

Section RemovalVersionMore.

(** [get_removal_version] through the first two components of [since]. *)
Lemma get_removal_version_by_parts since :
  get_removal_version since
  = match Py.split Py.chr_dot since with
    | major :: minor :: _ =>
        match Py.int major with
        | Ok z => Ok (if String.eqb minor "0" then z else z + 1, 1)
        | Raise _ => Raise ValueError
        end
    | _ => Raise ValueError
    end.
Proof.
  unfold get_removal_version.
  destruct (Py.split Py.chr_dot since) as [|major [|minor rest]];
    [reflexivity|reflexivity|].
  change (take 2 (major :: minor :: rest)) with (major :: minor :: take 0 rest).
  rewrite take_0. cbn -[Py.int String.eqb].
  destruct (String.eqb minor "0") eqn:E.
  - apply String.eqb_eq in E. subst minor.
    destruct (Py.int major) as [z|e] eqn:Hi; [reflexivity|].
    rewrite (int_error _ _ Hi). reflexivity.
  - destruct (Py.int major) as [z|e] eqn:Hi; [reflexivity|].
    rewrite (int_error _ _ Hi). reflexivity.
Qed.

Lemma split_not_empty sep s : Py.split sep s <> [].
Proof.
  destruct s as [|c s]; cbn [Py.split]; [discriminate|].
  destruct (Ascii.eqb c sep); [discriminate|].
  destruct (Py.split sep s); discriminate.
Qed.

(** A single component: the separator does not occur. *)
Lemma split_single sep s p :
  Py.split sep s = [p] ->
  Py.has_char (fun c => Ascii.eqb c sep) s = false.
Proof.
  revert p. induction s as [|c s IH]; intros p Hs; [reflexivity|].
  rewrite has_char_cons. cbn [Py.split] in Hs.
  destruct (Ascii.eqb c sep) eqn:E.
  - injection Hs as _ Hs. destruct (split_not_empty _ _ Hs).
  - cbn [orb]. destruct (Py.split sep s) as [|q [|q' qs]] eqn:Hs';
      try discriminate.
    + destruct (split_not_empty _ _ Hs').
    + eapply IH. reflexivity.
Qed.

(** X1: whenever [get_removal_version] returns, the minor part of the
    removal version is 1 and the major part is the number before the first
    dot, plus one unless the text between the first two dots is ["0"];
    whenever it fails, the error is a [ValueError], and either [since] has
    no dot or the text before the first dot is not a number. *)
Theorem get_removal_version_outcomes since :
  (forall major minor,
     get_removal_version since = Ok (major, minor) ->
     minor = 1
     /\ exists major_s minor_s rest z,
          Py.split Py.chr_dot since = major_s :: minor_s :: rest
          /\ Py.int major_s = Ok z
          /\ major = if String.eqb minor_s "0" then z else z + 1)
  /\ (forall e,
        get_removal_version since = Raise e ->
        e = ValueError
        /\ (no_dot since
            \/ exists major_s rest,
                 Py.split Py.chr_dot since = major_s :: rest
                 /\ Py.int major_s = Raise ValueError)).
Proof.
  rewrite get_removal_version_by_parts. split.
  - intros major minor.
    destruct (Py.split Py.chr_dot since) as [|major_s [|minor_s rest]];
      try discriminate.
    destruct (Py.int major_s) as [z|e] eqn:Hi; [|discriminate].
    intros H. injection H as <- <-. split; [reflexivity|].
    exists major_s, minor_s, rest, z. auto.
  - intros e.
    destruct (Py.split Py.chr_dot since) as [|major_s [|minor_s rest]] eqn:Hs.
    + destruct (split_not_empty _ _ Hs).
    + intros H. injection H as <-. split; [reflexivity|]. left.
      exact (split_single _ _ _ Hs).
    + destruct (Py.int major_s) as [z|e'] eqn:Hi; [discriminate|].
      intros H. injection H as <-. split; [reflexivity|]. right.
      exists major_s, (minor_s :: rest). split; [reflexivity|].
      rewrite Hi. f_equal. exact (int_error _ _ Hi).
Qed.

Lemma get_removal_version_outcomes_witness :
  (exists major_s minor_s rest z,
     Py.split Py.chr_dot "3.7" = major_s :: minor_s :: rest
     /\ Py.int major_s = Ok z
     /\ 4 = if String.eqb minor_s "0" then z else z + 1)
  /\ (no_dot "x.1"
      \/ exists major_s rest,
           Py.split Py.chr_dot "x.1" = major_s :: rest
           /\ Py.int major_s = Raise ValueError).
Proof.
  split.
  - exact (proj2 (proj1 (get_removal_version_outcomes "3.7") 4 1 eq_refl)).
  - exact (proj2 (proj2 (get_removal_version_outcomes "x.1") ValueError
                    eq_refl)).
Defined.

(** X2: only the first two components of [since] are read: whatever
    follows a second dot changes nothing. *)
Theorem get_removal_version_ignores_patch M m rest :
  no_dot M -> no_dot m ->
  get_removal_version (M ++ "." ++ m ++ "." ++ rest)
  = get_removal_version (M ++ "." ++ m).
Proof.
  intros HM Hm. rewrite !get_removal_version_by_parts.
  change (M ++ "." ++ m ++ "." ++ rest)
    with (M ++ String Py.chr_dot (m ++ String Py.chr_dot rest)).
  change (M ++ "." ++ m) with (M ++ String Py.chr_dot m).
  rewrite !(split_at_first_separator _ _ _ HM).
  rewrite (split_at_first_separator _ _ _ Hm).
  rewrite (split_without_separator _ _ Hm). reflexivity.
Qed.

Lemma get_removal_version_ignores_patch_witness :
  get_removal_version "2.0.1rc3" = get_removal_version "2.0".
Proof.
  exact (get_removal_version_ignores_patch "2" "0" "1rc3" eq_refl eq_refl).
Defined.

End RemovalVersionMore.

(** ** More on wrappers *)

Section WrappersMore.

Variable U : Type.
Variable prim_call : heap -> prim -> call_args -> state U -> outcome * state U.
Variable dedent : string -> string.

Local Abbreviation call := (call U prim_call).

(** X3: the decorator keeps the kind of its target: a class comes back as
    the same class, a class method as a class method and a static method
    as a static method around a new function, anything else as a function;
    a bound method never comes back decorated. *)
Theorem decorated_kind d h obj h' w :
  decorate dedent d h obj = (h', Ok w) ->
  match obj with
  | PClass c => w = PClass c
  | PClassMethod _ => exists f, w = PClassMethod f /\ isfunction f = true
  | PStaticMethod _ => exists f, w = PStaticMethod f /\ isfunction f = true
  | PMethod _ _ => False
  | _ => isfunction w = true
  end.
Proof.
  intros Hdec.
  destruct (decorate_success dedent d h obj h' w Hdec) as (text & _ & Hobj).
  assert (Hfun : forall func,
    deprecate_function dedent (d_since d) (d_pending d)
      (d_pending_warning_type d) h func text (d_warning_type d) = Ok w ->
    exists f, func_wrapper func f = Ok w /\ isfunction f = true).
  { intros func Hw.
    destruct (deprecate_function_shape dedent (d_since d) (d_pending d)
                (d_pending_warning_type d) h func text (d_warning_type d))
      as (n & doc & wr & Hshape).
    rewrite Hshape in Hw. eexists. split; [exact Hw|reflexivity]. }
  destruct obj;
    try (destruct (Hfun _ (proj2 Hobj)) as (f & Hf & Hisf);
         cbn in Hf; first [discriminate | injection Hf as <-; eauto]).
  destruct (deprecate_class_success dedent _ _ _ _ _ _ _ _ _ Hobj)
    as (k & new & original & wrapper & _ & _ & _ & _ & _ & Hw & _).
  exact Hw.
Qed.

(** X4: a bound method cannot be decorated: once the text of the warning
    is built, rebuilding the method around the wrapper fails with
    [TypeError], and nothing is returned. *)
Theorem bound_method_rejected d h f self text :
  deprecation_message (d_since d) (d_removal_version d) (d_obj_type d) h
    (PMethod f self) (d_message d) (d_name d) (d_alternative d) (d_pending d)
  = Ok text ->
  decorate dedent d h (PMethod f self) = (h, Raise TypeError).
Proof.
  intros Ht. unfold decorate, deprecate. rewrite Ht.
  destruct (deprecate_function_shape dedent (d_since d) (d_pending d)
              (d_pending_warning_type d) h (PMethod f self) text
              (d_warning_type d)) as (n & doc & wr & ->).
  reflexivity.
Qed.

(** X5: what the wrapper of a function-like target carries.  Its
    documentation is the deprecation note followed by the documentation of
    the target; its [__wrapped__] is the target and its name is the name of
    the target when it has one.  For a slot wrapper nothing is copied: the
    name is [deprecated_func], there is no [__wrapped__], and the note
    stands alone. *)
Theorem wrapper_metadata d h obj h' w :
  decorate dedent d h obj = (h', Ok w) ->
  is_class obj = false -> is_method_type obj = false ->
  exists text n wr code,
    deprecation_message (d_since d) (d_removal_version d) (d_obj_type d) h
      obj (d_message d) (d_name d) (d_alternative d) (d_pending d)
    = Ok text
    /\ w = PFunction n
             (Some (deprecate_doc dedent (d_since d)
                      (if is_wrapper_descriptor obj then None
                       else doc_of h obj) text))
             wr code
    /\ (if is_wrapper_descriptor obj
        then n = "deprecated_func" /\ wr = None
        else wr = Some obj
             /\ n = match name_of h obj with
                    | Ok n' => n'
                    | Raise _ => "deprecated_func"
                    end).
Proof.
  intros Hdec Hcls Hm.
  destruct (decorate_success dedent d h obj h' w Hdec) as (text & Ht & Hobj).
  exists text.
  assert (Hw : deprecate_function dedent (d_since d) (d_pending d)
                 (d_pending_warning_type d) h obj text (d_warning_type d)
               = Ok w).
  { destruct obj; try discriminate; apply Hobj. }
  unfold deprecate_function in Hw.
  replace (get_function obj) with obj in Hw
    by (destruct obj; (reflexivity || discriminate)).
  destruct (is_wrapper_descriptor obj) eqn:Hslot; cbn in Hw.
  - destruct obj; try discriminate. cbn in Hw. injection Hw as <-.
    do 3 eexists. split; [exact Ht|]. split; [reflexivity|]. split; reflexivity.
  - destruct obj; try discriminate; cbn in Hw; injection Hw as <-;
      do 3 eexists; (split; [exact Ht|]); (split; [reflexivity|]);
      split; reflexivity.
Qed.

(** X6: decorating twice stacks the warnings: a call of the outer wrapper
    emits the warning of the second decoration, then the warning of the
    first, then runs the original once. *)
Theorem decorated_twice d1 d2 h obj h1 w1 h2 w2 :
  is_class obj = false -> is_method_type obj = false ->
  decorate dedent d1 h obj = (h1, Ok w1) ->
  decorate dedent d2 h1 w1 = (h2, Ok w2) ->
  exists text1 text2,
    forall a st,
      call h2 w2 a st
      = call h2 obj a
          (warnings_warn text1 (category_of d1) 2
             (warnings_warn text2 (category_of d2) 2 st))
      /\ warnings (warnings_warn text1 (category_of d1) 2
                     (warnings_warn text2 (category_of d2) 2 st))
         = (warnings st ++ [Warning text2 (category_of d2) 2;
                            Warning text1 (category_of d1) 2])%list.
Proof.
  intros Hcls Hm H1 H2.
  destruct (decorate_success dedent d1 h obj h1 w1 H1) as (t1 & _ & Hobj).
  assert (Hw1 : h1 = h
                /\ deprecate_function dedent (d_since d1) (d_pending d1)
                     (d_pending_warning_type d1) h obj t1 (d_warning_type d1)
                   = Ok w1).
  { destruct obj; try discriminate; exact Hobj. }
  destruct Hw1 as [-> Hw1].
  destruct (deprecate_function_plain dedent _ _ _ _ _ _ _ _ Hw1 Hm)
    as (n & doc & wr & Hshape).
  destruct (decorated_function_forwards U prim_call dedent d1 h obj h w1
              H1 Hcls) as (text1 & _ & _ & Hcall1).
  assert (Hcls1 : is_class w1 = false) by (rewrite Hshape; reflexivity).
  assert (Hm1 : is_method_type w1 = false) by (rewrite Hshape; reflexivity).
  assert (Hh2 : h2 = h).
  { destruct (decorate_success dedent d2 h w1 h2 w2 H2) as (t2 & _ & Hobj2).
    rewrite Hshape in Hobj2. apply Hobj2. }
  subst h2.
  destruct (decorated_function_forwards U prim_call dedent _ _ _ _ _
              H2 Hcls1) as (text2 & _ & _ & Hcall2).
  exists text1, text2. intros a st. split.
  - rewrite (Hcall2 Hm1). apply (Hcall1 Hm).
  - cbn. rewrite <- app_assoc. reflexivity.
Qed.

(** X7: an extension class cannot be decorated: once the text of the
    warning is built, the assignment to its documentation fails with
    [TypeError] and no class is modified. *)
Theorem native_class_rejected d h c k text :
  h !! c = Some k -> cls_native k = true ->
  deprecation_message (d_since d) (d_removal_version d) (d_obj_type d) h
    (PClass c) (d_message d) (d_name d) (d_alternative d) (d_pending d)
  = Ok text ->
  decorate dedent d h (PClass c) = (h, Raise TypeError).
Proof.
  intros Hk Hn Ht. unfold decorate, deprecate. rewrite Ht.
  unfold deprecate_class, class_set_doc. rewrite Hk, Hn. reflexivity.
Qed.

(** X8: decorating a class reaches its subclasses through inheritance.  A
    subclass that lists the class first among its bases and does not
    define the rewritten entry ([__init__], or [__new__] when the allocator
    is not the default one) resolves that entry to the wrapper, which warns
    and forwards; a subclass that defines the entry keeps its own. *)
Theorem subclass_inherits_wrapper d h c h' w s ks rest :
  decorate dedent d h (PClass c) = (h', Ok w) ->
  s <> c -> h !! s = Some ks -> cls_mro ks = c :: rest ->
  exists new original wrapper text,
    let entry := if is_object_new new then "__init__" else "__new__" in
    class_getattr h c "__new__" = Ok new
    /\ class_getattr h c entry = Ok original
    /\ type_lookup h' c entry = Ok wrapper
    /\ (cls_dict ks !! entry = None -> type_lookup h' s entry = Ok wrapper)
    /\ (forall o, cls_dict ks !! entry = Some o ->
                  type_lookup h' s entry = Ok o)
    /\ (forall hh cc a st,
          call hh (bind_class cc wrapper) a st
          = call hh (bind_class cc (get_function original)) a
              (warnings_warn text (category_of d) 2 st)).
Proof.
  intros Hdec Hne Hs Hmro.
  destruct (decorate_success dedent d h (PClass c) h' w Hdec)
    as (text & _ & Hcls).
  destruct (deprecate_class_success dedent _ _ _ _ _ _ _ _ _ Hcls)
    as (k & new & original & wrapper & Hk & Hn & Hnew & Horig & Hwrap
        & _ & ->).
  exists new, original, wrapper, text. cbn zeta.
  set (entry := if is_object_new new then "__init__" else "__new__") in *.
  split; [exact Hnew|]. split; [exact Horig|].
  assert (Hown : forall hh, hh = h ->
    type_lookup (<[c := with_dict
                          (with_doc k (Some (deprecate_doc dedent (d_since d)
                                               (cls_doc k) text)))
                          (<[entry := wrapper]> (cls_dict k))]> hh) c entry
    = Ok wrapper).
  { intros hh ->. eapply type_lookup_own;
      [apply lookup_insert_eq|cbn; apply lookup_insert_eq]. }
  split; [apply Hown; reflexivity|]. split; [|split].
  - intros Hnone. unfold type_lookup, mro_lookup.
    rewrite lookup_insert_ne by congruence. rewrite Hs, Hnone, Hmro.
    cbn [bases_lookup]. rewrite lookup_insert_eq. cbn.
    rewrite lookup_insert_eq. reflexivity.
  - intros o Ho. unfold type_lookup, mro_lookup.
    rewrite lookup_insert_ne by congruence. rewrite Hs, Ho. reflexivity.
  - intros hh cc a st.
    apply (deprecate_function_forwards U prim_call dedent
             _ _ _ _ _ _ _ _ Hwrap).
Qed.

End WrappersMore.

Lemma decorated_kind_witness :
  exists w f,
    decorate Sample.identity (Sample.since_1_0 false) Sample.classes
      Cases.class_greet = (Sample.classes, Ok w)
    /\ w = PClassMethod f /\ isfunction f = true.
Proof.
  pose (w := match snd (decorate Sample.identity (Sample.since_1_0 false)
                          Sample.classes Cases.class_greet) with
             | Ok w => w
             | Raise _ => PNone
             end).
  assert (E : decorate Sample.identity (Sample.since_1_0 false) Sample.classes
                Cases.class_greet = (Sample.classes, Ok w))
    by (vm_compute; reflexivity).
  destruct (decorated_kind Sample.identity _ _ _ _ _ E) as (f & Hf & Hfun).
  exists w, f. split; [exact E|]. split; [exact Hf|exact Hfun].
Defined.

Lemma bound_method_rejected_witness :
  decorate Sample.identity (Sample.since_1_0 false) Sample.classes
    Cases.bound_greet = (Sample.classes, Raise TypeError).
Proof.
  exact (bound_method_rejected Sample.identity (Sample.since_1_0 false)
           Sample.classes Sample.greet (PInstance 1%positive 0)
           "The greet method is deprecated and may be removed in version 1.1."
           eq_refl).
Defined.

Lemma wrapper_metadata_witness :
  (exists w doc code,
     decorate Sample.identity (Sample.since_1_0 false) Sample.classes
       Sample.greet = (Sample.classes, Ok w)
     /\ w = PFunction "greet" doc (Some Sample.greet) code)
  /\ (exists w doc code,
        decorate Sample.identity (Sample.since_1_0 false) Sample.classes
          Cases.slot = (Sample.classes, Ok w)
        /\ w = PFunction "deprecated_func" doc None code).
Proof.
  split.
  - pose (w := match snd (decorate Sample.identity (Sample.since_1_0 false)
                            Sample.classes Sample.greet) with
               | Ok w => w
               | Raise _ => PNone
               end).
    assert (E : decorate Sample.identity (Sample.since_1_0 false)
                  Sample.classes Sample.greet = (Sample.classes, Ok w))
      by (vm_compute; reflexivity).
    destruct (wrapper_metadata Sample.identity _ _ _ _ _ E eq_refl eq_refl)
      as (text & n & wr & code & _ & Hw & Hwr & Hn).
    exists w. do 2 eexists. split; [exact E|].
    rewrite Hw, Hwr, Hn. reflexivity.
  - pose (w := match snd (decorate Sample.identity (Sample.since_1_0 false)
                            Sample.classes Cases.slot) with
               | Ok w => w
               | Raise _ => PNone
               end).
    assert (E : decorate Sample.identity (Sample.since_1_0 false)
                  Sample.classes Cases.slot = (Sample.classes, Ok w))
      by (vm_compute; reflexivity).
    destruct (wrapper_metadata Sample.identity _ _ _ _ _ E eq_refl eq_refl)
      as (text & n & wr & code & _ & Hw & Hn & Hwr).
    exists w. do 2 eexists. split; [exact E|].
    rewrite Hw, Hwr, Hn. reflexivity.
Defined.

Lemma decorated_twice_witness :
  exists w1 w2 text1 text2,
    decorate Sample.identity (Sample.since_1_0 false) Sample.classes
      Sample.greet = (Sample.classes, Ok w1)
    /\ decorate Sample.identity (Sample.since_1_0 true) Sample.classes w1
       = (Sample.classes, Ok w2)
    /\ call nat Sample.prim_call Sample.classes w2 Sample.no_args Sample.start
       = call nat Sample.prim_call Sample.classes Sample.greet Sample.no_args
           (warnings_warn text1 SunpyDeprecationWarning 2
              (warnings_warn text2 SunpyPendingDeprecationWarning 2
                 Sample.start)).
Proof.
  pose (w1 := match snd (decorate Sample.identity (Sample.since_1_0 false)
                           Sample.classes Sample.greet) with
              | Ok w => w
              | Raise _ => PNone
              end).
  pose (w2 := match snd (decorate Sample.identity (Sample.since_1_0 true)
                           Sample.classes w1) with
              | Ok w => w
              | Raise _ => PNone
              end).
  assert (E1 : decorate Sample.identity (Sample.since_1_0 false)
                 Sample.classes Sample.greet = (Sample.classes, Ok w1))
    by (vm_compute; reflexivity).
  assert (E2 : decorate Sample.identity (Sample.since_1_0 true)
                 Sample.classes w1 = (Sample.classes, Ok w2))
    by (vm_compute; reflexivity).
  destruct (decorated_twice nat Sample.prim_call Sample.identity
              (Sample.since_1_0 false) (Sample.since_1_0 true) Sample.classes
              Sample.greet Sample.classes w1 Sample.classes w2
              eq_refl eq_refl E1 E2) as (text1 & text2 & H).
  exists w1, w2, text1, text2. split; [exact E1|]. split; [exact E2|].
  exact (proj1 (H Sample.no_args Sample.start)).
Defined.

Lemma native_class_rejected_witness :
  decorate Sample.identity (Sample.since_1_0 false) Cases.classes
    (PClass 4%positive) = (Cases.classes, Raise TypeError).
Proof.
  exact (native_class_rejected Sample.identity (Sample.since_1_0 false)
           Cases.classes 4%positive Cases.Native
           "The ndarray class is deprecated and may be removed in version 1.1."
           eq_refl eq_refl eq_refl).
Defined.

Lemma subclass_inherits_wrapper_witness :
  exists h' wrapper,
    decorate Sample.identity (Sample.since_1_0 false) Cases.classes
      (PClass 1%positive) = (h', Ok (PClass 1%positive))
    /\ type_lookup h' 1%positive "__init__" = Ok wrapper
    /\ type_lookup h' 3%positive "__init__" = Ok wrapper.
Proof.
  pose (h' := fst (decorate Sample.identity (Sample.since_1_0 false)
                     Cases.classes (PClass 1%positive))).
  assert (E : decorate Sample.identity (Sample.since_1_0 false)
                Cases.classes (PClass 1%positive)
              = (h', Ok (PClass 1%positive)))
    by (vm_compute; reflexivity).
  destruct (subclass_inherits_wrapper nat Sample.prim_call Sample.identity
              _ _ _ _ _ 3%positive Cases.Refractor [] E)
    as (new & original & wrapper & text & Hnew & _ & Hc & Hs & _);
    [discriminate|reflexivity|reflexivity|].
  assert (Hn : Ok new = Ok object_new) by (rewrite <- Hnew; reflexivity).
  injection Hn as ->.
  exists h', wrapper. split; [exact E|]. split; [exact Hc|].
  apply Hs. reflexivity.
Defined.

(** ** Custom messages *)

Section CustomMessages.

Implicit Types (kw : string -> option string) (s pre post field acc : string).

Lemma brace_free_cons c s :
  brace_free (String c s) = true ->
  Ascii.eqb c "{"%char = false /\ Ascii.eqb c "}"%char = false
  /\ brace_free s = true.
Proof.
  unfold brace_free. rewrite has_char_cons, negb_orb.
  intros [Hc Hs]%andb_true_iff. apply negb_true_iff, orb_false_iff in Hc.
  tauto.
Qed.

Lemma fmap_result_compose {A B C} (f : A -> B) (g : B -> C) (r : result A) :
  g <$> (f <$> r) = (fun a => g (f a)) <$> r.
Proof. destruct r; reflexivity. Qed.

(** Text without braces goes through [format] unchanged, in front of
    whatever follows it. *)
Lemma format_scan_prefix kw pre s :
  brace_free pre = true ->
  Py.format_scan kw (pre ++ s) None
  = String.append pre <$> Py.format_scan kw s None.
Proof.
  induction pre as [|c pre IH]; intros Hb.
  - rewrite append_empty_l. destruct (Py.format_scan kw s None); reflexivity.
  - apply brace_free_cons in Hb as (Ho & Hc & Hb).
    rewrite append_cons. cbn [Py.format_scan]. rewrite Ho, Hc, (IH Hb).
    rewrite fmap_result_compose. reflexivity.
Qed.

Lemma format_brace_free kw s :
  brace_free s = true -> Py.format s kw = Ok s.
Proof.
  intros Hb. unfold Py.format.
  rewrite <- (append_empty_r s) at 1. rewrite (format_scan_prefix _ _ _ Hb).
  cbn. rewrite append_empty_r. reflexivity.
Qed.





Lemma custom_message_not_default s :
  s <> "" -> message_falsy (MsgStr s) || message_is_function (MsgStr s) = false.
Proof.
  intros Hs. cbn. rewrite orb_false_r. apply String.eqb_neq, Hs.
Qed.

(** X9: a custom message without braces is the text of the warning, as it
    is: nothing is substituted and, unlike in the default text, the
    alternative is not mentioned.  The name of the target is resolved all
    the same. *)
Theorem custom_message_verbatim since removal_version obj_type h obj text
  name alternative pending n :
  text <> "" -> brace_free text = true ->
  (if String.eqb name "" then name_of h (get_function obj) else Ok name)
  = Ok n ->
  deprecation_message since removal_version obj_type h obj (MsgStr text)
    name alternative pending = Ok text.
Proof.
  intros Hne Hb Hname. unfold deprecation_message.
  rewrite Hname, (custom_message_not_default _ Hne).
  cbn [mbind result_bind bind_result message_format andb].
  rewrite (format_brace_free _ _ Hb). cbn. rewrite append_empty_r.
  reflexivity.
Qed.


(** X11: called without a removal version, as its own default allows,
    [_deprecated] words the default text of a deprecation that is not
    pending with "a future version" in place of a version number. *)
Theorem no_removal_version_text dedent since name alternative obj_type wt
  pwt h0 h obj n :
  (if String.eqb name "" then name_of h (get_function obj) else Ok name)
  = Ok n ->
  exists d,
    _deprecated dedent since (MsgStr "") name alternative false None obj_type
      wt pwt h0 = (h0, Ok (ReturnsDecorator d))
    /\ deprecation_message (d_since d) (d_removal_version d) (d_obj_type d)
         h obj (d_message d) (d_name d) (d_alternative d) (d_pending d)
       = Ok (("The " ++ n ++ " " ++ obj_type_name obj_type obj
              ++ " is deprecated and may be removed in a future version.")
             ++ (if String.eqb alternative "" then ""
                 else Py.nl ++ "        Use " ++ alternative ++ " instead.")).
Proof.
  intros Hname. eexists. split; [reflexivity|].
  cbn [d_since d_removal_version d_obj_type d_message d_name d_alternative
       d_pending].
  rewrite default_message by reflexivity. rewrite Hname. reflexivity.
Qed.

End CustomMessages.

Lemma custom_message_verbatim_witness :
  deprecation_message "1.0" (Some "1.1") None Sample.classes Sample.greet
    (MsgStr "greet is going away") "" "sunpy.hello" false
  = Ok "greet is going away".
Proof.
  refine (custom_message_verbatim "1.0" (Some "1.1") None Sample.classes
            Sample.greet "greet is going away" "" "sunpy.hello" false "greet"
            _ eq_refl eq_refl).
  discriminate.
Defined.


Lemma no_removal_version_text_witness :
  exists d,
    _deprecated Sample.identity "1.0" (MsgStr "") "" "" false None None
      SunpyDeprecationWarning SunpyPendingDeprecationWarning Sample.classes
    = (Sample.classes, Ok (ReturnsDecorator d))
    /\ deprecation_message (d_since d) (d_removal_version d) (d_obj_type d)
         Sample.classes Sample.greet (d_message d) (d_name d)
         (d_alternative d) (d_pending d)
       = Ok ("The greet function is deprecated and may be removed in "
             ++ "a future version.").
Proof.
  exact (no_removal_version_text Sample.identity "1.0" "" "" None
           SunpyDeprecationWarning SunpyPendingDeprecationWarning
           Sample.classes Sample.classes Sample.greet "greet" eq_refl).
Defined.

(** ** More on the docstring composer *)

Section DocstringsMore.

Import add_common_docstring.

(** X12: the composer is not idempotent.  Applied a second time to the
    function it returned, with no substitutions, it prepends and appends
    its fragments again; the composer itself, whose missing fragments the
    first application replaced by empty strings, is left unchanged by the
    second. *)
Theorem add_common_docstring_twice (A P : option string) name doc wrapped code :
  let once := or_empty P ++ or_empty doc ++ or_empty A in
  exists self1,
    __call__ (__init__ A P ∅) (PFunction name doc wrapped code)
    = (self1, PFunction name (Some once) wrapped code,
       Ok (PFunction name (Some once) wrapped code))
    /\ __call__ self1 (PFunction name (Some once) wrapped code)
       = (self1,
          PFunction name (Some (or_empty P ++ once ++ or_empty A)) wrapped code,
          Ok (PFunction name (Some (or_empty P ++ once ++ or_empty A))
                wrapped code)).
Proof.
  intros once.
  exists {| append := Some (or_empty A); prepend := Some (or_empty P);
            kwargs := ∅ |}.
  split.
  - destruct (composed_doc A P ∅ name doc wrapped code) as (r & -> & ->).
    reflexivity.
  - destruct (composed_doc (Some (or_empty A)) (Some (or_empty P)) ∅ name
                (Some once) wrapped code) as (r & H & ->).
    exact H.
Qed.


End DocstringsMore.


(** ** A class left half rewritten *)

Section HalfRewritten.

Variable dedent : string -> string.

(** X14: [deprecate_class] is not atomic.  The documentation of the class
    is replaced before the constructor entry is wrapped, so when the
    wrapping fails, as it does with [TypeError] for an entry that is a
    bound method once unwrapped, the class keeps its new documentation and
    its old entry. *)
Theorem deprecate_class_not_atomic since pending pwt h c k message wt new
  original f self :
  h !! c = Some k -> cls_native k = false ->
  class_getattr h c "__new__" = Ok new ->
  class_getattr h c (if is_object_new new then "__init__" else "__new__")
  = Ok original ->
  get_function original = PMethod f self ->
  deprecate_class dedent since pending pwt h c message wt
  = (<[c := with_doc k (Some (deprecate_doc dedent since (cls_doc k) message))]> h,
     Raise TypeError).
Proof.
  intros Hk Hn Hnew Horig Hf.
  unfold deprecate_class, class_set_doc. rewrite Hk, Hn.
  cbn [mbind option_bind].
  set (doc := Some (deprecate_doc dedent since (cls_doc k) message)).
  assert (Hget : forall name,
    class_getattr (<[c := with_doc k doc]> h) c name = class_getattr h c name).
  { intros name. apply (class_getattr_insert h c k); auto. }
  rewrite (Hget "__new__"), (Hget "__init__"), Hnew.
  assert (Hwrap : forall hh,
    deprecate_function dedent since pending pwt hh (get_function original)
      message wt = Raise TypeError).
  { intros hh.
    destruct (deprecate_function_shape dedent since pending pwt hh
                (get_function original) message wt) as (n & d & wr & ->).
    rewrite Hf. reflexivity. }
  destruct (is_object_new new).
  - rewrite Horig. cbn [mbind result_bind bind_result]. rewrite Hwrap.
    reflexivity.
  - rewrite Hnew in Horig. injection Horig as ->.
    cbn [mbind result_bind bind_result]. rewrite Hwrap. reflexivity.
Qed.

End HalfRewritten.

Lemma deprecate_class_not_atomic_witness :
  exists h',
    decorate Sample.identity (Sample.since_1_0 false) Cases.odd_classes
      (PClass 5%positive) = (h', Raise TypeError)
    /\ (k ← h' !! 5%positive; cls_doc k) <> Some "Odd one."
    /\ (k ← h' !! 5%positive; cls_dict k !! "__init__")
       = Some (PClassMethod Cases.bound_greet).
Proof.
  eexists. split; [|split].
  - exact (deprecate_class_not_atomic Sample.identity "1.0" false
             SunpyPendingDeprecationWarning Cases.odd_classes 5%positive
             Cases.Odd
             "The Odd class is deprecated and may be removed in version 1.1."
             SunpyDeprecationWarning object_new
             (PMethod Cases.bound_greet (PClass 5%positive))
             Sample.greet (PInstance 1%positive 0)
             eq_refl eq_refl eq_refl eq_refl eq_refl).
  - vm_compute. discriminate.
  - vm_compute. reflexivity.
Defined.
